(** * efro.message._protocol: the message protocol registry and codec

    A shallow embedding of [MessageProtocol] from
    [dist/ba_data/python/efro/message/_protocol.py]: construction of the
    id/type registries, the envelope codec ([_encode], [_decode]) and the
    translation of failures to and from [ErrorResponse].

    Conventions of the embedding.
    - A Python value is a [pyval]; a [dict] with string keys is an
      association list in insertion order ([pydict]).  Floating point
      numbers are outside the model.
    - A raising computation is a value of [result A]: [inl e] is a raised
      exception [e], [inr a] is a normal return of [a].
    - [assert c] raises [AssertionError] only when the interpreter flag
      [__debug__] is true; the flag is the parameter [py_debug].
    - The functions [json.dumps], [json.loads], [dataclass_to_dict],
      [dataclass_from_dict] and the class attributes of user classes are
      parameters of the development (they live outside this module). *)

From Stdlib Require Import ZArith String Ascii List Bool Lia.
From stdpp Require Import base option list gmap strings sets fin_maps countable.

Open Scope string_scope.
Open Scope Z_scope.

#[local] Set Warnings "-register-all,-clear-no-such-hyp".

(** ** Python values *)

(** Members of the enum [ErrorType]. *)
Inductive ErrorType : Type :=
  | CLEAN
  | OTHER.

Inductive pyval : Type :=
  | PNone
  | PBool (b : bool)
  | PInt (z : Z)
  | PStr (s : string)
  | PList (l : list pyval)
  | PDict (d : list (string * pyval))
  | PErrorType (e : ErrorType).

Abbreviation pydict := (list (string * pyval)).

(** [type(v).__name__], as it appears in the interpreter's own messages. *)
Definition type_name (v : pyval) : string :=
  match v with
  | PNone => "NoneType"
  | PBool _ => "bool"
  | PInt _ => "int"
  | PStr _ => "str"
  | PList _ => "list"
  | PDict _ => "dict"
  | PErrorType _ => "ErrorType"
  end.

(** [isinstance(v, int)]: [bool] is a subclass of [int]. *)
Definition isinstance_int (v : pyval) : bool :=
  match v with
  | PInt _ | PBool _ => true
  | _ => false
  end.

(** [isinstance(v, dict)]. *)
Definition isinstance_dict (v : pyval) : bool :=
  match v with
  | PDict _ => true
  | _ => false
  end.

(** ** Dictionaries with string keys, in insertion order *)

Module Dict.

(** [d.get(k)] *)
Fixpoint get (k : string) (d : pydict) : option pyval :=
  match d with
  | [] => None
  | (k', v) :: d' => if String.eqb k k' then Some v else get k d'
  end.

(** [k in d] *)
Definition contains (k : string) (d : pydict) : bool :=
  match get k d with
  | Some _ => true
  | None => false
  end.

(** [d[k] = v]: an existing key keeps its position, a new one goes last. *)
Fixpoint set (k : string) (v : pyval) (d : pydict) : pydict :=
  match d with
  | [] => [(k, v)]
  | (k', v') :: d' =>
      if String.eqb k k' then (k', v) :: d' else (k', v') :: set k v d'
  end.

(** [d.pop(k)]: the value and the dictionary without the key, or [None]
    where Python raises [KeyError]. *)
Fixpoint pop (k : string) (d : pydict) : option (pyval * pydict) :=
  match d with
  | [] => None
  | (k', v) :: d' =>
      if String.eqb k k' then Some (v, d')
      else match pop k d' with
           | Some (x, d'') => Some (x, (k', v) :: d'')
           | None => None
           end
  end.

End Dict.

(** ** Classes and instances *)

(** Class objects.  The two built-in response classes are constructors;
    any other class is named by its module-qualified name, which stands for
    the identity of the class object. *)
Inductive cls : Type :=
  | ErrorResponse
  | EmptyResponse
  | UserClass (qualname : string).

Global Instance cls_eq_dec : EqDecision cls.
Proof. solve_decision. Defined.

Global Instance cls_countable : Countable cls.
Proof.
  refine (inj_countable'
    (fun c => match c with
              | ErrorResponse => inl true
              | EmptyResponse => inl false
              | UserClass q => inr q
              end)
    (fun x => match x with
              | inl true => ErrorResponse
              | inl false => EmptyResponse
              | inr q => UserClass q
              end) _).
  intros []; reflexivity.
Defined.

(** The library class a class derives from (single inheritance). *)
Inductive pybase : Type :=
  | BaseMessage
  | BaseResponse
  | BaseErrorResponse
  | BaseEmptyResponse
  | BaseOther.

(** What the protocol inspects of a class object. *)
Record class_decl : Type := ClassDecl {
  decl_name : string;                  (* cls.__name__ *)
  decl_ioprepped : bool;               (* is_ioprepped_dataclass(cls) *)
  decl_base : pybase;
  decl_response_types : list cls       (* cls.get_response_types() *)
}.

(** An instance: its class and its attributes. *)
Record pyobj : Type := PyObj {
  obj_type : cls;
  obj_attrs : pydict
}.

(** ** Exceptions *)

Inductive exn : Type :=
  | AssertionError (msg : string)
  | ValueError (msg : string)
  | TypeError (msg : string)
  | RuntimeError (msg : string)
  | KeyError (key : string)
  | AttributeError (msg : string)
  | UnregisteredMessageIDError (opname : string) (m_id : pyval)
  | CleanError (arg : pyval)
  | RemoteError (arg : pyval)
  | ExternalError (what : string).

Definition result (A : Type) : Type := exn + A.

Definition ret {A} (a : A) : result A := inr a.
Definition raise {A} (e : exn) : result A := inl e.
Definition bind {A B} (m : result A) (k : A -> result B) : result B :=
  match m with
  | inl e => inl e
  | inr a => k a
  end.

Notation "x <- m ;; k" := (bind m (fun x => k))
  (at level 100, m at next level, right associativity).
Notation "m ;;; k" := (bind m (fun _ => k))
  (at level 100, right associativity).

(** [for x in xs: state = body(state, x)], stopping at the first raise. *)
Fixpoint for_each {S X} (body : S -> X -> result S) (xs : list X) (s : S)
  : result S :=
  match xs with
  | [] => ret s
  | x :: xs' => s' <- body s x ;; for_each body xs' s'
  end.

(** ** The protocol *)

(** [repr(cls)] as interpolated by the f-strings of the module. *)
Definition repr_cls (c : cls) : string :=
  match c with
  | ErrorResponse => "<class 'efro.message._message.ErrorResponse'>"
  | EmptyResponse => "<class 'efro.message._message.EmptyResponse'>"
  | UserClass q => "<class '" ++ q ++ "'>"
  end.

(** [ErrorResponse(error_message=msg, error_type=ty)] *)
Definition new_ErrorResponse (msg : string) (ty : ErrorType) : pyobj :=
  PyObj ErrorResponse [("error_message", PStr msg); ("error_type", PErrorType ty)].

(** [EmptyResponse()] *)
Definition new_EmptyResponse : pyobj := PyObj EmptyResponse [].

(** [obj.name] *)
Definition getattr (o : pyobj) (name : string) : result pyval :=
  match Dict.get name (obj_attrs o) with
  | Some v => ret v
  | None => raise (AttributeError
      (repr_cls (obj_type o) ++ " object has no attribute '" ++ name ++ "'"))
  end.

(** The exception handed to [encode_error_response]: whether it is an
    instance of [CleanError], and [str(exc)]. *)
Record pyexception : Type := PyException {
  exc_is_CleanError : bool;
  exc_str : string
}.

(** A record emitted through [logging.exception]: the message and the
    formatted exception information attached to it. *)
Record log_record : Type := LogException {
  log_msg : string;
  log_exc_info : string
}.

Record MessageProtocol : Type := mkMessageProtocol {
  message_types_by_id : gmap Z cls;
  message_ids_by_type : gmap cls Z;
  response_types_by_id : gmap Z cls;
  response_ids_by_type : gmap cls Z;
  _type_key : option string;
  preserve_clean_errors : bool;
  log_remote_exceptions : bool;
  trusted_sender : bool
}.

Definition set_message_type (self : MessageProtocol) (m_id : Z) (m_type : cls)
  : MessageProtocol :=
  mkMessageProtocol
    (<[m_id := m_type]> (message_types_by_id self))
    (<[m_type := m_id]> (message_ids_by_type self))
    (response_types_by_id self) (response_ids_by_type self)
    (_type_key self) (preserve_clean_errors self)
    (log_remote_exceptions self) (trusted_sender self).

Definition set_response_type (self : MessageProtocol) (r_id : Z) (r_type : cls)
  : MessageProtocol :=
  mkMessageProtocol
    (message_types_by_id self) (message_ids_by_type self)
    (<[r_id := r_type]> (response_types_by_id self))
    (<[r_type := r_id]> (response_ids_by_type self))
    (_type_key self) (preserve_clean_errors self)
    (log_remote_exceptions self) (trusted_sender self).

(** [x is None] for the result of a [dict.get]. *)
Definition is_None {A} (o : option A) : bool :=
  match o with
  | None => true
  | Some _ => false
  end.

(** [k in d] for a registry. *)
Definition has_key {K} `{Countable K} {A} (k : K) (d : gmap K A) : bool :=
  negb (is_None (d !! k)).

Section Protocol.

(** The interpreter flag [__debug__]. *)
Variable py_debug : bool.

(** The declarations of the user classes. *)
Variable user_class : string -> class_decl.

(** The structural serializer of [efro.dataclassio]. *)
Variable dataclass_to_dict : pyobj -> result pydict.
Variable dataclass_from_dict : cls -> pyval -> result pyobj.

(** [json.dumps(out, separators=(',', ':'))] and [json.loads]. *)
Variable json_dumps : pyval -> result string.
Variable json_loads : string -> result pyval.

(** Modelled from the spec: the declarations of the two built-in response
    classes of [efro.message._message] (section 3 of the specification:
    both are Response variants that are always available). *)
Definition class_of (c : cls) : class_decl :=
  match c with
  | ErrorResponse => ClassDecl "ErrorResponse" true BaseErrorResponse []
  | EmptyResponse => ClassDecl "EmptyResponse" true BaseEmptyResponse []
  | UserClass q => user_class q
  end.

Definition is_ioprepped_dataclass (c : cls) : bool :=
  decl_ioprepped (class_of c).

(** [issubclass(c, Message)] *)
Definition issubclass_Message (c : cls) : bool :=
  match decl_base (class_of c) with
  | BaseMessage => true
  | _ => false
  end.

(** [issubclass(c, Response)] *)
Definition issubclass_Response (c : cls) : bool :=
  match decl_base (class_of c) with
  | BaseResponse | BaseErrorResponse | BaseEmptyResponse => true
  | _ => false
  end.

(** [isinstance(o, EmptyResponse)] *)
Definition isinstance_EmptyResponse (o : pyobj) : bool :=
  match decl_base (class_of (obj_type o)) with
  | BaseEmptyResponse => true
  | _ => false
  end.

(** [isinstance(o, ErrorResponse)] *)
Definition isinstance_ErrorResponse (o : pyobj) : bool :=
  match decl_base (class_of (obj_type o)) with
  | BaseErrorResponse => true
  | _ => false
  end.

(** [assert cond, msg] *)
Definition assert_msg (cond : bool) (msg : string) : result unit :=
  if py_debug && negb cond then raise (AssertionError msg) else ret tt.

(** [assert cond] *)
Definition assert_ (cond : bool) : result unit := assert_msg cond EmptyString.

(** *** Construction *)

(** Body of the loop over [message_types.items()].  The keys are integers
    by their type, so [assert isinstance(m_id, int)] has nothing to check. *)
Definition register_message (self : MessageProtocol) (item : Z * cls)
  : result MessageProtocol :=
  let '(m_id, m_type) := item in
  assert_ (0 <=? m_id) ;;;
  assert_ (is_ioprepped_dataclass m_type && issubclass_Message m_type) ;;;
  assert_ (is_None (message_types_by_id self !! m_id)) ;;;
  ret (set_message_type self m_id m_type).

(** Body of the loop over [response_types.items()]. *)
Definition register_response (self : MessageProtocol) (item : Z * cls)
  : result MessageProtocol :=
  let '(r_id, r_type) := item in
  assert_ (0 <=? r_id) ;;;
  assert_ (is_ioprepped_dataclass r_type && issubclass_Response r_type) ;;;
  assert_ (is_None (response_types_by_id self !! r_id)) ;;;
  ret (set_response_type self r_id r_type).

Definition _reg_if_not (self : MessageProtocol) (reg_tp : cls) (reg_id : Z)
  : result MessageProtocol :=
  if has_key reg_tp (response_ids_by_type self) then ret self
  else
    assert_ (is_None (response_types_by_id self !! reg_id)) ;;;
    ret (set_response_type self reg_id reg_tp).

(** Body of the first loop of the debug-mode validation: the response
    types of one message type are checked and collected
    ([get_response_types] returns a list by its type). *)
Definition collect_response_types (all_response_types : gset cls)
    (item : Z * cls) : result (gset cls) :=
  let '(m_id, m_type) := item in
  let m_rtypes := decl_response_types (class_of m_type) in
  assert_msg (negb (Nat.eqb (length m_rtypes) 0))
    ("Message type " ++ repr_cls m_type ++ " specifies no return types.") ;;;
  assert_ (Nat.eqb (size (list_to_set m_rtypes : gset cls)) (length m_rtypes)) ;;;
  ret (all_response_types ∪ list_to_set m_rtypes).

(** Body of the loop over [all_response_types].  The set is visited in
    the order of [elements], which is not fixed by Python either. *)
Definition check_response_type (self : MessageProtocol) (c : cls)
  : result MessageProtocol :=
  assert_ (is_ioprepped_dataclass c) ;;;
  assert_ (issubclass_Response c) ;;;
  if has_key c (response_ids_by_type self) then ret self
  else raise (ValueError
    ("Possible response type " ++ repr_cls c ++
     " needs to be included in response_types for this protocol.")).

(** [set(tp.__name__ for tp in self.message_ids_by_type)] *)
Definition mtypenames (self : MessageProtocol) : gset string :=
  list_to_set
    ((fun tp => decl_name (class_of tp)) <$>
       elements (dom (message_ids_by_type self))).

(** The block guarded by [if __debug__:]. *)
Definition debug_validation (self : MessageProtocol)
    (message_types : list (Z * cls)) : result MessageProtocol :=
  all_response_types <- for_each collect_response_types message_types ∅ ;;
  self <- for_each check_response_type (elements all_response_types) self ;;
  if negb (Nat.eqb (size (mtypenames self)) (length message_types))
  then raise (ValueError
    "message_types contains duplicate __name__s; all types are required to have unique names.")
  else ret self.

(** [MessageProtocol.__init__].  The two dictionaries are given by their
    items in insertion order. *)
Definition __init__ (message_types response_types : list (Z * cls))
    (type_key : option string)
    (preserve_clean_errors_ log_remote_exceptions_ trusted_sender_ : bool)
  : result MessageProtocol :=
  let self := mkMessageProtocol ∅ ∅ ∅ ∅ type_key preserve_clean_errors_
                log_remote_exceptions_ trusted_sender_ in
  self <- for_each register_message message_types self ;;
  self <- for_each register_response response_types self ;;
  self <- _reg_if_not self ErrorResponse (-1) ;;
  self <- _reg_if_not self EmptyResponse (-2) ;;
  if py_debug then debug_validation self message_types else ret self.

(** *** Encoding *)

Definition _encode (self : MessageProtocol) (message : pyobj)
    (ids_by_type : gmap cls Z) (opname : string) : result string :=
  match ids_by_type !! obj_type message with
  | None => raise (TypeError
      (opname ++ " type is not registered in protocol: " ++
       repr_cls (obj_type message)))
  | Some m_id =>
      msgdict <- dataclass_to_dict message ;;
      out <- match _type_key self with
             | Some type_key =>
                 if Dict.contains type_key msgdict
                 then raise (RuntimeError
                   ("Type-key " ++ type_key ++ " found in msg of type " ++
                    repr_cls (obj_type message)))
                 else ret (PDict (Dict.set type_key (PInt m_id) msgdict))
             | None => ret (PDict [("m", PDict msgdict); ("t", PInt m_id)])
             end ;;
      json_dumps out
  end.

Definition encode_message (self : MessageProtocol) (message : pyobj)
  : result string :=
  _encode self message (message_ids_by_type self) "message".

Definition encode_response (self : MessageProtocol) (response : pyobj)
  : result string :=
  _encode self response (response_ids_by_type self) "response".

(** The local [err_response] of [encode_error_response];
    [format_exc] is the text that [traceback.format_exc()] returns in the
    calling context. *)
Definition err_response (self : MessageProtocol) (exc : pyexception)
    (format_exc : string) : pyobj :=
  if exc_is_CleanError exc && preserve_clean_errors self
  then new_ErrorResponse (exc_str exc) CLEAN
  else new_ErrorResponse
         (if trusted_sender self then format_exc
          else "An unknown error has occurred.")
         OTHER.

(** [encode_error_response]: the records logged and the outcome. *)
Definition encode_error_response (self : MessageProtocol)
    (exc : pyexception) (format_exc : string)
  : list log_record * result string :=
  (if log_remote_exceptions self
   then [LogException "Error handling message." format_exc]
   else [],
   encode_response self (err_response self exc format_exc)).

(** *** Decoding *)

(** [msgfull.pop(key)], and [msgfull] afterwards. *)
Definition py_pop (msgfull : pyval) (key : string) : result (pyval * pyval) :=
  match msgfull with
  | PDict d =>
      match Dict.pop key d with
      | Some (v, d') => ret (v, PDict d')
      | None => raise (KeyError key)
      end
  | PList _ =>
      raise (TypeError "'str' object cannot be interpreted as an integer")
  | v => raise (AttributeError
      ("'" ++ type_name v ++ "' object has no attribute 'pop'"))
  end.

(** [msgfull.get(key)] *)
Definition py_get (msgfull : pyval) (key : string) : result pyval :=
  match msgfull with
  | PDict d =>
      match Dict.get key d with
      | Some v => ret v
      | None => ret PNone
      end
  | v => raise (AttributeError
      ("'" ++ type_name v ++ "' object has no attribute 'get'"))
  end.

(** [types_by_id.get(m_id)]: [True] and [False] hash and compare as 1
    and 0, lists and dictionaries are not hashable. *)
Definition get_by_id (types_by_id : gmap Z cls) (m_id : pyval)
  : result (option cls) :=
  match m_id with
  | PInt z => ret (types_by_id !! z)
  | PBool b => ret (types_by_id !! (if b then 1 else 0))
  | PList _ | PDict _ =>
      raise (TypeError ("unhashable type: '" ++ type_name m_id ++ "'"))
  | _ => ret None
  end.

(** [v is ErrorType.CLEAN] *)
Definition is_CLEAN (v : pyval) : bool :=
  match v with
  | PErrorType CLEAN => true
  | _ => false
  end.

(** The result is [None] where Python returns [None]. *)
Definition _decode (self : MessageProtocol) (data : string)
    (types_by_id : gmap Z cls) (opname : string) : result (option pyobj) :=
  msgfull <- json_loads data ;;
  assert_ (isinstance_dict msgfull) ;;;
  idm <- match _type_key self with
         | Some type_key =>
             popped <- py_pop msgfull type_key ;;
             assert_ (isinstance_int (fst popped)) ;;;
             ret popped
         | None =>
             m_id <- py_get msgfull "t" ;;
             msgdict <- py_get msgfull "m" ;;
             ret (m_id, msgdict)
         end ;;
  let '(m_id, msgdict) := idm in
  assert_ (isinstance_int m_id) ;;;
  assert_ (isinstance_dict msgdict) ;;;
  msgtype <- get_by_id types_by_id m_id ;;
  match msgtype with
  | None => raise (UnregisteredMessageIDError opname m_id)
  | Some msgtype =>
      out <- dataclass_from_dict msgtype msgdict ;;
      if isinstance_EmptyResponse out then ret None
      else if isinstance_ErrorResponse out then
        assert_ (String.eqb opname "response") ;;;
        clean <- (if preserve_clean_errors self
                  then error_type <- getattr out "error_type" ;;
                       ret (is_CLEAN error_type)
                  else ret false) ;;
        error_message <- getattr out "error_message" ;;
        if clean then raise (CleanError error_message)
        else raise (RemoteError error_message)
      else ret (Some out)
  end.

(** [isinstance(out, Message)] *)
Definition isinstance_Message (out : option pyobj) : bool :=
  match out with
  | Some o => issubclass_Message (obj_type o)
  | None => false
  end.

(** [isinstance(out, (Response, type(None)))] *)
Definition isinstance_Response_or_None (out : option pyobj) : bool :=
  match out with
  | Some o => issubclass_Response (obj_type o)
  | None => true
  end.

Definition decode_message (self : MessageProtocol) (data : string)
  : result (option pyobj) :=
  out <- _decode self data (message_types_by_id self) "message" ;;
  assert_ (isinstance_Message out) ;;;
  ret out.

Definition decode_response (self : MessageProtocol) (data : string)
  : result (option pyobj) :=
  out <- _decode self data (response_types_by_id self) "response" ;;
  assert_ (isinstance_Response_or_None out) ;;;
  ret out.

End Protocol.

(** ** Statement-level notions *)

(** The value handed to [json.dumps] by [_encode]. *)
Definition envelope (type_key : option string) (m_id : Z) (msgdict : pydict)
  : pyval :=
  match type_key with
  | Some k => PDict (Dict.set k (PInt m_id) msgdict)
  | None => PDict [("m", PDict msgdict); ("t", PInt m_id)]
  end.

(** The id and the payload of a well-formed envelope: the id is an integer
    and the payload is a dictionary. *)
Definition split_envelope (type_key : option string) (msgfull : pyval)
  : option (Z * pydict) :=
  match msgfull with
  | PDict d =>
      match type_key with
      | Some k =>
          match Dict.pop k d with
          | Some (PInt z, d') => Some (z, d')
          | _ => None
          end
      | None =>
          match Dict.get "t" d, Dict.get "m" d with
          | Some (PInt z), Some (PDict p) => Some (z, p)
          | _, _ => None
          end
      end
  | _ => None
  end.

(** A malformed envelope: not a dictionary, or the id is missing or not an
    [int] for [isinstance], or (wrapper framing) the payload is missing or
    not a [dict]. *)
Definition malformed_envelope (type_key : option string) (msgfull : pyval)
  : bool :=
  match msgfull with
  | PDict d =>
      match type_key with
      | Some k =>
          match Dict.get k d with
          | Some v => negb (isinstance_int v)
          | None => true
          end
      | None =>
          match Dict.get "t" d with
          | Some v => negb (isinstance_int v)
          | None => true
          end
          || match Dict.get "m" d with
             | Some v => negb (isinstance_dict v)
             | None => true
             end
      end
  | _ => true
  end.

(** The text channel carries the document [v] unchanged. *)
Definition transports (json_dumps : pyval -> result string)
    (json_loads : string -> result pyval) (v : pyval) : Prop :=
  exists w, json_dumps v = inr w /\ json_loads w = inr v.

(** The payload can be framed: under inline framing it does not already
    hold the type key. *)
Definition frameable (type_key : option string) (msgdict : pydict) : Prop :=
  forall k, type_key = Some k -> Dict.contains k msgdict = false.

(** The class [c] is registered under [i] in both directions. *)
Definition registered (types_by_id : gmap Z cls) (ids_by_type : gmap cls Z)
    (c : cls) (i : Z) : Prop :=
  ids_by_type !! c = Some i /\ types_by_id !! i = Some c.

(** The ids respect [assert m_id >= 0]: the assertion is executed, or the
    caller passes non-negative ids and a dictionary (distinct keys). *)
Definition ids_as_required (py_debug : bool) (types : list (Z * cls)) : Prop :=
  py_debug = true \/ (Forall (fun it => 0 <= it.1) types /\ NoDup types.*1).

(** The exception classes raised by a failed construction. *)
Definition is_config_error (e : exn) : bool :=
  match e with
  | AssertionError _ | ValueError _ => true
  | _ => false
  end.

(** The exception classes raised for a malformed envelope. *)
Definition is_envelope_error (e : exn) : bool :=
  match e with
  | AssertionError _ | KeyError _ => true
  | _ => false
  end.

(** ** Registries as pairs of maps *)

Abbreviation registry := (gmap Z cls * gmap cls Z)%type.

(** The effect of one registration on a pair of maps. *)
Definition reg_insert (r : registry) (it : Z * cls) : registry :=
  (<[it.1 := it.2]> r.1, <[it.2 := it.1]> r.2).

(** The effect of [_reg_if_not] on the response maps. *)
Definition reg_builtin (r : registry) (reg_tp : cls) (reg_id : Z) : registry :=
  if has_key reg_tp r.2 then r else reg_insert r (reg_id, reg_tp).

Definition msg_reg (self : MessageProtocol) : registry :=
  (message_types_by_id self, message_ids_by_type self).

Definition resp_reg (self : MessageProtocol) : registry :=
  (response_types_by_id self, response_ids_by_type self).

(** Every id is new when its item is registered. *)
Fixpoint fresh_ids (r : registry) (l : list (Z * cls)) : Prop :=
  match l with
  | [] => True
  | it :: l' => r.1 !! it.1 = None /\ fresh_ids (reg_insert r it) l'
  end.

(** Every type registered under an id is the type found under that id. *)
Definition consistent (r : registry) : Prop :=
  forall (t : cls) (i : Z), r.2 !! t = Some i -> r.1 !! i = Some t.

(** The configuration fields of a protocol. *)
Definition protocol_config (self : MessageProtocol)
  : option string * bool * bool * bool :=
  (_type_key self, preserve_clean_errors self, log_remote_exceptions self,
   trusted_sender self).

(** What the executed assertions of one registration loop establish. *)
Definition loop_checked (ok : cls -> bool) (l : list (Z * cls)) : Prop :=
  fresh_ids (∅, ∅) l /\
  Forall (fun it => 0 <= it.1) l /\
  Forall (fun it => ok it.2 = true) l.

(** How a built-in response class [b] with reserved id [reserved] is
    registered, given the caller's [response_types]: at the reserved id when
    the caller did not list the class, else at the caller's id, with nothing
    at the reserved id. *)
Definition builtin_registered (self : MessageProtocol)
    (response_types : list (Z * cls)) (b : cls) (reserved : Z) : Prop :=
  (b ∉ response_types.*2 ->
     registered (response_types_by_id self) (response_ids_by_type self)
       b reserved) /\
  (b ∈ response_types.*2 ->
     exists i, (i, b) ∈ response_types /\ i <> reserved /\
       registered (response_types_by_id self) (response_ids_by_type self) b i /\
       response_types_by_id self !! reserved = None).

(** The id under which [c] is registered by a loop over the items [l]: the
    id of the last item whose class is [c]. *)
Fixpoint last_id (c : cls) (l : list (Z * cls)) : option Z :=
  match l with
  | [] => None
  | (i, t) :: l' =>
      match last_id c l' with
      | Some j => Some j
      | None => if decide (t = c) then Some i else None
      end
  end.

(** The [error_message] that [encode_error_response] puts on the wire. *)
Definition error_text (self : MessageProtocol) (exc : pyexception)
    (format_exc : string) : string :=
  if exc_is_CleanError exc && preserve_clean_errors self then exc_str exc
  else if trusted_sender self then format_exc
  else "An unknown error has occurred.".

(** The id value and the payload of an envelope that passes the assertions
    of [_decode]: the id is an [int] for [isinstance] (an integer or a
    boolean) and the payload is a dictionary. *)
Definition accepted_envelope (type_key : option string) (msgfull : pyval)
  : option (pyval * pydict) :=
  match msgfull with
  | PDict d =>
      match type_key with
      | Some k =>
          match Dict.pop k d with
          | Some (v, d') => if isinstance_int v then Some (v, d') else None
          | None => None
          end
      | None =>
          match Dict.get "t" d, Dict.get "m" d with
          | Some v, Some (PDict p) =>
              if isinstance_int v then Some (v, p) else None
          | _, _ => None
          end
      end
  | _ => None
  end.

(** The integer an accepted id value stands for in a registry lookup. *)
Definition id_value (v : pyval) : option Z :=
  match v with
  | PInt z => Some z
  | PBool b => Some (if b then 1 else 0)
  | _ => None
  end.

(** ** A concrete instance: compact JSON text, the built-in serializers and
    two user classes *)

Module Demo.

Definition dquote : ascii := "034"%char.
Definition backslash : ascii := "092"%char.

(** Decimal digits of a natural number, most significant first. *)
Fixpoint digits_fuel (fuel : nat) (n : N) (acc : string) : string :=
  match fuel with
  | O => acc
  | S fuel' =>
      let d := String (ascii_of_N (48 + N.modulo n 10)) acc in
      if N.ltb n 10 then d else digits_fuel fuel' (N.div n 10) d
  end.

Definition string_of_Z (z : Z) : string :=
  let n := Z.to_N (Z.abs z) in
  let s := digits_fuel (S (N.to_nat (N.log2 n))) n EmptyString in
  if Z.ltb z 0 then String "-" s else s.

Fixpoint escape (s : string) : string :=
  match s with
  | EmptyString => EmptyString
  | String c s' =>
      if Ascii.eqb c dquote then String backslash (String dquote (escape s'))
      else if Ascii.eqb c backslash
           then String backslash (String backslash (escape s'))
           else String c (escape s')
  end.

Definition quote (s : string) : string :=
  String dquote (escape s ++ String dquote EmptyString).

(** [json.dumps(v, separators=(',', ':'))] for printable ASCII strings;
    [None] where the value is not serializable. *)
Fixpoint dumps (v : pyval) : option string :=
  match v with
  | PNone => Some "null"
  | PBool true => Some "true"
  | PBool false => Some "false"
  | PInt z => Some (string_of_Z z)
  | PStr s => Some (quote s)
  | PList l =>
      let fix items (l : list pyval) (first : bool) : option string :=
        match l with
        | [] => Some "]"
        | x :: l' =>
            match dumps x, items l' false with
            | Some sx, Some sl =>
                Some ((if first then EmptyString else ",") ++ sx ++ sl)
            | _, _ => None
            end
        end in
      match items l true with
      | Some s => Some ("[" ++ s)
      | None => None
      end
  | PDict d =>
      let fix members (d : pydict) (first : bool) : option string :=
        match d with
        | [] => Some "}"
        | (k, x) :: d' =>
            match dumps x, members d' false with
            | Some sx, Some sd =>
                Some ((if first then EmptyString else ",") ++ quote k ++ ":" ++ sx ++ sd)
            | _, _ => None
            end
        end in
      match members d true with
      | Some s => Some ("{" ++ s)
      | None => None
      end
  | PErrorType _ => None
  end.

Definition json_dumps (v : pyval) : result string :=
  match dumps v with
  | Some s => ret s
  | None => raise (TypeError "Object of type ErrorType is not JSON serializable")
  end.

Definition is_ws (c : ascii) : bool :=
  Ascii.eqb c " " || Ascii.eqb c "010" || Ascii.eqb c "013" || Ascii.eqb c "009".

Fixpoint skip_ws (s : string) : string :=
  match s with
  | String c s' => if is_ws c then skip_ws s' else s
  | EmptyString => s
  end.

Definition digit_of (c : ascii) : option Z :=
  let n := Z.of_N (N_of_ascii c) in
  if (48 <=? n) && (n <=? 57) then Some (n - 48) else None.

Fixpoint read_digits (s : string) (acc : Z) : Z * string :=
  match s with
  | String c s' =>
      match digit_of c with
      | Some d => read_digits s' (10 * acc + d)
      | None => (acc, s)
      end
  | EmptyString => (acc, s)
  end.

(** After the opening quote: the string up to the closing quote. *)
Fixpoint read_string (s : string) : option (string * string) :=
  match s with
  | EmptyString => None
  | String c s' =>
      if Ascii.eqb c dquote then Some (EmptyString, s')
      else if Ascii.eqb c backslash then
        match s' with
        | String e s'' =>
            if Ascii.eqb e dquote || Ascii.eqb e backslash then
              match read_string s'' with
              | Some (t, rest) => Some (String e t, rest)
              | None => None
              end
            else None
        | EmptyString => None
        end
      else match read_string s' with
           | Some (t, rest) => Some (String c t, rest)
           | None => None
           end
  end.

Definition starts_number (c : ascii) : bool :=
  match digit_of c with
  | Some _ => true
  | None => false
  end.

Definition ends_integer (s : string) : bool :=
  match s with
  | String c _ => negb (Ascii.eqb c "." || Ascii.eqb c "e" || Ascii.eqb c "E")
  | EmptyString => true
  end.

Definition read_integer (neg : bool) (s : string) : option (pyval * string) :=
  match s with
  | String c _ =>
      if starts_number c then
        let '(n, rest) := read_digits s 0 in
        if ends_integer rest then Some (PInt (if neg then - n else n), rest)
        else None
      else None
  | EmptyString => None
  end.

(** A recursive-descent reader; [fuel] bounds the number of calls. *)
Fixpoint read_value (fuel : nat) (s : string) : option (pyval * string) :=
  match fuel with
  | O => None
  | S fuel' =>
      match skip_ws s with
      | String "n" (String "u" (String "l" (String "l" rest))) =>
          Some (PNone, rest)
      | String "t" (String "r" (String "u" (String "e" rest))) =>
          Some (PBool true, rest)
      | String "f" (String "a" (String "l" (String "s" (String "e" rest)))) =>
          Some (PBool false, rest)
      | String "[" rest =>
          match skip_ws rest with
          | String "]" rest' => Some (PList [], rest')
          | _ =>
              match read_items fuel' rest with
              | Some (l, rest') => Some (PList l, rest')
              | None => None
              end
          end
      | String "{" rest =>
          match skip_ws rest with
          | String "}" rest' => Some (PDict [], rest')
          | _ =>
              match read_members fuel' rest [] with
              | Some (d, rest') => Some (PDict d, rest')
              | None => None
              end
          end
      | String "-" rest => read_integer true rest
      | String c rest =>
          if Ascii.eqb c dquote then
            match read_string rest with
            | Some (t, rest') => Some (PStr t, rest')
            | None => None
            end
          else read_integer false (String c rest)
      | EmptyString => None
      end
  end
with read_items (fuel : nat) (s : string) : option (list pyval * string) :=
  match fuel with
  | O => None
  | S fuel' =>
      match read_value fuel' s with
      | Some (x, rest) =>
          match skip_ws rest with
          | String "," rest' =>
              match read_items fuel' rest' with
              | Some (l, rest'') => Some (x :: l, rest'')
              | None => None
              end
          | String "]" rest' => Some ([x], rest')
          | _ => None
          end
      | None => None
      end
  end
with read_members (fuel : nat) (s : string) (acc : pydict)
  : option (pydict * string) :=
  match fuel with
  | O => None
  | S fuel' =>
      match skip_ws s with
      | String c rest =>
          if Ascii.eqb c dquote then
            match read_string rest with
            | Some (k, rest1) =>
                match skip_ws rest1 with
                | String ":" rest2 =>
                    match read_value fuel' rest2 with
                    | Some (x, rest3) =>
                        let acc' := Dict.set k x acc in
                        match skip_ws rest3 with
                        | String "," rest4 => read_members fuel' rest4 acc'
                        | String "}" rest4 => Some (acc', rest4)
                        | _ => None
                        end
                    | None => None
                    end
                | _ => None
                end
            | None => None
            end
          else None
      | EmptyString => None
      end
  end.

(** [json.loads] on texts without fractions, exponents and escapes other
    than those of [escape]. *)
Definition json_loads (data : string) : result pyval :=
  match read_value (S (String.length data)) data with
  | Some (v, rest) =>
      match skip_ws rest with
      | EmptyString => ret v
      | _ => raise (ExternalError "json.JSONDecodeError")
      end
  | None => raise (ExternalError "json.JSONDecodeError")
  end.

Definition ErrorType_name (e : ErrorType) : string :=
  match e with
  | CLEAN => "CLEAN"
  | OTHER => "OTHER"
  end.

(** Modelled from the spec: [dataclass_to_dict] of [efro.dataclassio] on
    the built-in responses (section 6 of the specification: an
    ErrorResponse is the map of [error_message] to a string and of
    [error_type] to "CLEAN" or "OTHER", an EmptyResponse is the empty
    map).  The fields of a user class are stored under their own names. *)
Definition dataclass_to_dict (o : pyobj) : result pydict :=
  match obj_type o with
  | ErrorResponse =>
      match Dict.get "error_message" (obj_attrs o),
            Dict.get "error_type" (obj_attrs o) with
      | Some (PStr s), Some (PErrorType e) =>
          ret [("error_message", PStr s); ("error_type", PStr (ErrorType_name e))]
      | _, _ => raise (ExternalError "TypeError")
      end
  | EmptyResponse => ret []
  | UserClass _ => ret (obj_attrs o)
  end.

(** Modelled from the spec: [dataclass_from_dict] of [efro.dataclassio],
    the inverse of the layout above; anything else is a schema error. *)
Definition dataclass_from_dict (c : cls) (v : pyval) : result pyobj :=
  match v with
  | PDict d =>
      match c with
      | ErrorResponse =>
          match Dict.get "error_message" d, Dict.get "error_type" d with
          | Some (PStr s), Some (PStr t) =>
              if String.eqb t "CLEAN" then ret (new_ErrorResponse s CLEAN)
              else if String.eqb t "OTHER" then ret (new_ErrorResponse s OTHER)
              else raise (ExternalError "SchemaError")
          | _, _ => raise (ExternalError "SchemaError")
          end
      | EmptyResponse => ret new_EmptyResponse
      | UserClass _ => ret (PyObj c d)
      end
  | _ => raise (ExternalError "SchemaError")
  end.

(** The message [Ping], answered by [Pong]; a second class named [Ping]
    in another module; any other name is not a protocol class. *)
Definition user_class (qualname : string) : class_decl :=
  if String.eqb qualname "app.Ping"
  then ClassDecl "Ping" true BaseMessage [UserClass "app.Pong"]
  else if String.eqb qualname "app.Pong"
  then ClassDecl "Pong" true BaseResponse []
  else if String.eqb qualname "legacy.Ping"
  then ClassDecl "Ping" true BaseMessage [EmptyResponse]
  else ClassDecl qualname false BaseOther [].

Definition Ping : cls := UserClass "app.Ping".
Definition Pong : cls := UserClass "app.Pong".
Definition LegacyPing : cls := UserClass "legacy.Ping".

Definition init (py_debug : bool) (message_types response_types : list (Z * cls))
    (type_key : option string) : result MessageProtocol :=
  __init__ py_debug user_class message_types response_types type_key
    true true false.

Definition encode_message := encode_message dataclass_to_dict json_dumps.
Definition encode_response := encode_response dataclass_to_dict json_dumps.
Definition encode_error_response :=
  encode_error_response dataclass_to_dict json_dumps.
Definition decode_message (py_debug : bool) :=
  decode_message py_debug user_class dataclass_from_dict json_loads.
Definition decode_response (py_debug : bool) :=
  decode_response py_debug user_class dataclass_from_dict json_loads.

(** The text of a document, empty where it cannot be serialized. *)
Definition wire (v : pyval) : string :=
  match json_dumps v with
  | inr w => w
  | inl _ => EmptyString
  end.

(** The protocol of one message [Ping] (id 1) answered by [Pong] (id 1),
    as [init] builds it. *)
Definition ping_pong (type_key : option string) : MessageProtocol :=
  mkMessageProtocol
    {[1 := Ping]} {[Ping := 1]}
    (<[-2 := EmptyResponse]> (<[-1 := ErrorResponse]> {[1 := Pong]}))
    (<[EmptyResponse := -2]> (<[ErrorResponse := -1]> {[Pong := 1]}))
    type_key true true false.

End Demo.

(** ** Further protocols over the same classes *)

Module Peers.

(** A peer that lists no response type, does not preserve clean errors and
    trusts its receivers, as [__init__] builds it without assertions. *)
Definition plain_peer : MessageProtocol :=
  mkMessageProtocol
    {[1 := Demo.Ping]} {[Demo.Ping := 1]}
    (<[-2 := EmptyResponse]> {[-1 := ErrorResponse]})
    (<[EmptyResponse := -2]> {[ErrorResponse := -1]})
    None false false true.

(** A protocol that lists EmptyResponse as the message 0, as [__init__]
    builds it without assertions. *)
Definition response_as_message : MessageProtocol :=
  mkMessageProtocol
    {[0 := EmptyResponse]} {[EmptyResponse := 0]}
    (<[-2 := EmptyResponse]> {[-1 := ErrorResponse]})
    (<[EmptyResponse := -2]> {[ErrorResponse := -1]})
    None true true false.

(** The class table with a second message, [Echo], answered by [Pong] or
    by nothing. *)
Definition user_class (qualname : string) : class_decl :=
  if String.eqb qualname "app.Echo"
  then ClassDecl "Echo" true BaseMessage [Demo.Pong; EmptyResponse]
  else Demo.user_class qualname.

Definition Echo : cls := UserClass "app.Echo".

(** The protocol of the messages [Ping] (id 1) and [Echo] (id 2), as
    [__init__] builds it with assertions. *)
Definition two_messages : MessageProtocol :=
  mkMessageProtocol
    (<[2 := Echo]> {[1 := Demo.Ping]}) (<[Echo := 2]> {[Demo.Ping := 1]})
    (<[-2 := EmptyResponse]> (<[-1 := ErrorResponse]> {[1 := Demo.Pong]}))
    (<[EmptyResponse := -2]> (<[ErrorResponse := -1]> {[Demo.Pong := 1]}))
    None true true false.

End Peers.

(** * Properties *)

(** ** Dictionaries *)

Lemma Dict_pop_set_fresh (k : string) (v : pyval) (d : pydict) :
  Dict.contains k d = false -> Dict.pop k (Dict.set k v d) = Some (v, d).
Proof.
  unfold Dict.contains. induction d as [|[k' v'] d IH]; simpl.
  - intros _. now rewrite String.eqb_refl.
  - destruct (String.eqb k k') eqn:E; [discriminate|].
    simpl. rewrite E. intros H. now rewrite (IH H).
Qed.

Lemma Dict_pop_get (k : string) (d : pydict) :
  Dict.pop k d = None <-> Dict.get k d = None.
Proof.
  induction d as [|[k' v'] d IH]; simpl; [tauto|].
  destruct (String.eqb k k'); [split; discriminate|].
  destruct (Dict.pop k d) as [[x d'']|]; split; intros H;
    try discriminate; try reflexivity.
  - apply IH in H. discriminate.
  - now apply IH.
Qed.

Lemma Dict_pop_value (k : string) (d d' : pydict) (v : pyval) :
  Dict.pop k d = Some (v, d') -> Dict.get k d = Some v.
Proof.
  revert d'. induction d as [|[k' v'] d IH]; simpl; intros d'; [discriminate|].
  destruct (String.eqb k k'); [congruence|].
  destruct (Dict.pop k d) as [[x d'']|] eqn:E; [|discriminate].
  intros [= -> <-]. now apply (IH d'').
Qed.

Lemma split_envelope_envelope (type_key : option string) (i : Z) (d : pydict) :
  frameable type_key d ->
  split_envelope type_key (envelope type_key i d) = Some (i, d).
Proof.
  intros Hf. destruct type_key as [k|]; simpl; [|reflexivity].
  now rewrite Dict_pop_set_fresh by (now apply Hf).
Qed.

(** ** The error monad and assertions *)

Lemma assert_true (py_debug : bool) : assert_ py_debug true = ret tt.
Proof. unfold assert_, assert_msg. now rewrite andb_false_r. Qed.

Lemma assert_msg_inr (py_debug cond : bool) (msg : string) (u : unit) :
  assert_msg py_debug cond msg = inr u -> py_debug = true -> cond = true.
Proof.
  unfold assert_msg. intros H ->. simpl in H. now destruct cond.
Qed.

Lemma assert_inl (py_debug cond : bool) (msg : string) (e : exn) :
  assert_msg py_debug cond msg = inl e -> e = AssertionError msg.
Proof.
  unfold assert_msg. destruct (py_debug && negb cond); [|discriminate].
  now intros [= <-].
Qed.

Lemma assert_debug_false (cond : bool) (msg : string) :
  assert_msg false cond msg = ret tt.
Proof. reflexivity. Qed.

Lemma assert_debug_true (cond : bool) (msg : string) :
  assert_msg true cond msg = if cond then ret tt else raise (AssertionError msg).
Proof. now destruct cond. Qed.

Lemma bind_inr {A B} (m : result A) (k : A -> result B) (b : B) :
  bind m k = inr b -> exists a, m = inr a /\ k a = inr b.
Proof. destruct m as [e|a]; simpl; [discriminate|]. eauto. Qed.

Lemma bind_inl {A B} (m : result A) (k : A -> result B) (e : exn) :
  bind m k = inl e -> m = inl e \/ exists a, m = inr a /\ k a = inl e.
Proof. destruct m as [e'|a]; simpl; [left; congruence|]. eauto. Qed.

(** ** Decoding a well-formed envelope *)

Section Decoding.

Variable py_debug : bool.
Variable user_class : string -> class_decl.
Variable dataclass_from_dict : cls -> pyval -> result pyobj.
Variable json_loads : string -> result pyval.

Let decode := _decode py_debug user_class dataclass_from_dict json_loads.

(** On a well-formed envelope [_decode] reduces to the lookup of the id
    and the treatment of the decoded instance. *)
Lemma _decode_split (self : MessageProtocol) (data : string)
    (types_by_id : gmap Z cls) (opname : string) (msgfull : pyval)
    (z : Z) (p : pydict) :
  json_loads data = inr msgfull ->
  split_envelope (_type_key self) msgfull = Some (z, p) ->
  decode self data types_by_id opname =
    match types_by_id !! z with
    | None => raise (UnregisteredMessageIDError opname (PInt z))
    | Some msgtype =>
        out <- dataclass_from_dict msgtype (PDict p) ;;
        if isinstance_EmptyResponse user_class out then ret None
        else if isinstance_ErrorResponse user_class out then
          assert_ py_debug (String.eqb opname "response") ;;;
          clean <- (if preserve_clean_errors self
                    then error_type <- getattr out "error_type" ;;
                         ret (is_CLEAN error_type)
                    else ret false) ;;
          error_message <- getattr out "error_message" ;;
          if clean then raise (CleanError error_message)
          else raise (RemoteError error_message)
        else ret (Some out)
    end.
Proof.
  intros Hl Hs. unfold decode, _decode. rewrite Hl. simpl bind.
  unfold split_envelope in Hs.
  destruct msgfull as [| | | | |d|]; try discriminate.
  simpl isinstance_dict. rewrite assert_true. simpl bind.
  destruct (_type_key self) as [k|].
  - simpl py_pop. destruct (Dict.pop k d) as [[v d']|]; [|discriminate].
    destruct v; try discriminate. injection Hs as -> ->.
    simpl. repeat (rewrite assert_true; simpl). reflexivity.
  - simpl py_get.
    destruct (Dict.get "t" d) as [v|]; [|discriminate].
    destruct v; try discriminate.
    destruct (Dict.get "m" d) as [v|]; [|discriminate].
    destruct v; try discriminate. injection Hs as -> ->.
    simpl. repeat (rewrite assert_true; simpl). reflexivity.
Qed.

Lemma _decode_unregistered (self : MessageProtocol) (data : string)
    (types_by_id : gmap Z cls) (opname : string) (msgfull : pyval)
    (z : Z) (p : pydict) :
  json_loads data = inr msgfull ->
  split_envelope (_type_key self) msgfull = Some (z, p) ->
  types_by_id !! z = None ->
  decode self data types_by_id opname =
    inl (UnregisteredMessageIDError opname (PInt z)).
Proof.
  intros Hl Hs Hz. rewrite (_decode_split _ _ _ _ _ _ _ Hl Hs), Hz.
  reflexivity.
Qed.

Lemma _decode_plain (self : MessageProtocol) (data : string)
    (types_by_id : gmap Z cls) (opname : string) (msgfull : pyval)
    (z : Z) (p : pydict) (c : cls) (out : pyobj) :
  json_loads data = inr msgfull ->
  split_envelope (_type_key self) msgfull = Some (z, p) ->
  types_by_id !! z = Some c ->
  dataclass_from_dict c (PDict p) = inr out ->
  isinstance_EmptyResponse user_class out = false ->
  isinstance_ErrorResponse user_class out = false ->
  decode self data types_by_id opname = inr (Some out).
Proof.
  intros Hl Hs Hz Hd He Hr.
  rewrite (_decode_split _ _ _ _ _ _ _ Hl Hs), Hz, Hd. simpl.
  now rewrite He, Hr.
Qed.

Lemma _decode_empty (self : MessageProtocol) (data : string)
    (types_by_id : gmap Z cls) (opname : string) (msgfull : pyval)
    (z : Z) (p : pydict) (c : cls) (out : pyobj) :
  json_loads data = inr msgfull ->
  split_envelope (_type_key self) msgfull = Some (z, p) ->
  types_by_id !! z = Some c ->
  dataclass_from_dict c (PDict p) = inr out ->
  isinstance_EmptyResponse user_class out = true ->
  decode self data types_by_id opname = inr None.
Proof.
  intros Hl Hs Hz Hd He.
  rewrite (_decode_split _ _ _ _ _ _ _ Hl Hs), Hz, Hd. simpl.
  now rewrite He.
Qed.

End Decoding.

(** ** Encoding *)

Section Encoding.

Variable dataclass_to_dict : pyobj -> result pydict.
Variable json_dumps : pyval -> result string.

Lemma _encode_envelope (self : MessageProtocol) (message : pyobj)
    (ids_by_type : gmap cls Z) (opname : string) (i : Z) (d : pydict) :
  ids_by_type !! obj_type message = Some i ->
  dataclass_to_dict message = inr d ->
  frameable (_type_key self) d ->
  _encode dataclass_to_dict json_dumps self message ids_by_type opname =
    json_dumps (envelope (_type_key self) i d).
Proof.
  intros Hi Hd Hf. unfold _encode. rewrite Hi, Hd. simpl.
  unfold envelope. destruct (_type_key self) as [k|]; [|reflexivity].
  now rewrite (Hf k eq_refl).
Qed.

End Encoding.

(** ** The codec *)

Section Codec.

Variable py_debug : bool.
Variable user_class : string -> class_decl.
Variable dataclass_to_dict : pyobj -> result pydict.
Variable dataclass_from_dict : cls -> pyval -> result pyobj.
Variable json_dumps : pyval -> result string.
Variable json_loads : string -> result pyval.

Let enc_message := encode_message dataclass_to_dict json_dumps.
Let enc_response := encode_response dataclass_to_dict json_dumps.
Let enc_error := encode_error_response dataclass_to_dict json_dumps.
Let dec_message :=
  decode_message py_debug user_class dataclass_from_dict json_loads.
Let dec_response :=
  decode_response py_debug user_class dataclass_from_dict json_loads.

(** An instance that is neither an EmptyResponse nor an ErrorResponse
    comes back from [_decode] as it went into [_encode]. *)
Lemma _encode_decode (self : MessageProtocol) (o : pyobj)
    (types_by_id : gmap Z cls) (ids_by_type : gmap cls Z)
    (opname : string) (i : Z) (d : pydict) :
  registered types_by_id ids_by_type (obj_type o) i ->
  dataclass_to_dict o = inr d ->
  dataclass_from_dict (obj_type o) (PDict d) = inr o ->
  frameable (_type_key self) d ->
  transports json_dumps json_loads (envelope (_type_key self) i d) ->
  isinstance_EmptyResponse user_class o = false ->
  isinstance_ErrorResponse user_class o = false ->
  exists w,
    _encode dataclass_to_dict json_dumps self o ids_by_type opname = inr w /\
    _decode py_debug user_class dataclass_from_dict json_loads
      self w types_by_id opname = inr (Some o).
Proof.
  intros [Hi Ht] Hd Hb Hf (w & Hw & Hr) He Hx. exists w. split.
  - now rewrite (_encode_envelope _ _ _ _ _ _ _ _ Hi Hd Hf).
  - eapply _decode_plain; eauto using split_envelope_envelope.
Qed.

(** C1 (amended).  Round trip: a registered Message instance whose payload
    the structural serializer and the text channel carry, and which (under
    inline framing) does not hold the type key, is returned unchanged by
    decode_message after encode_message; the same holds for decode_response
    after encode_response on every registered Response instance that is
    neither an EmptyResponse nor an ErrorResponse. *)
Theorem encode_decode_roundtrip (self : MessageProtocol) :
  (forall (m : pyobj) (i : Z) (d : pydict),
      registered (message_types_by_id self) (message_ids_by_type self)
        (obj_type m) i ->
      issubclass_Message user_class (obj_type m) = true ->
      dataclass_to_dict m = inr d ->
      dataclass_from_dict (obj_type m) (PDict d) = inr m ->
      frameable (_type_key self) d ->
      transports json_dumps json_loads (envelope (_type_key self) i d) ->
      exists w, enc_message self m = inr w /\
                dec_message self w = inr (Some m))
  /\
  (forall (r : pyobj) (i : Z) (d : pydict),
      registered (response_types_by_id self) (response_ids_by_type self)
        (obj_type r) i ->
      issubclass_Response user_class (obj_type r) = true ->
      isinstance_EmptyResponse user_class r = false ->
      isinstance_ErrorResponse user_class r = false ->
      dataclass_to_dict r = inr d ->
      dataclass_from_dict (obj_type r) (PDict d) = inr r ->
      frameable (_type_key self) d ->
      transports json_dumps json_loads (envelope (_type_key self) i d) ->
      exists w, enc_response self r = inr w /\
                dec_response self w = inr (Some r)).
Proof.
  split.
  - intros m i d Hreg Hm Hd Hb Hf Ht.
    assert (He : isinstance_EmptyResponse user_class m = false).
    { unfold isinstance_EmptyResponse. unfold issubclass_Message in Hm.
      now destruct (decl_base (class_of user_class (obj_type m))). }
    assert (Hx : isinstance_ErrorResponse user_class m = false).
    { unfold isinstance_ErrorResponse. unfold issubclass_Message in Hm.
      now destruct (decl_base (class_of user_class (obj_type m))). }
    destruct (_encode_decode self m _ _ "message" i d Hreg Hd Hb Hf Ht He Hx)
      as (w & Hw & Hr).
    exists w. split; [exact Hw|].
    unfold dec_message, decode_message. rewrite Hr. simpl.
    rewrite Hm, assert_true. reflexivity.
  - intros r i d Hreg Hm He Hx Hd Hb Hf Ht.
    destruct (_encode_decode self r _ _ "response" i d Hreg Hd Hb Hf Ht He Hx)
      as (w & Hw & Hr).
    exists w. split; [exact Hw|].
    unfold dec_response, decode_response. rewrite Hr. simpl.
    rewrite Hm, assert_true. reflexivity.
Qed.

(** C2.  Privacy boundary: for a failure that is not a preserved clean
    error, an untrusted sender produces the ErrorResponse with the fixed
    message and type OTHER, so the wire outcome is the same for any two
    such failures and any two stack traces; a trusted sender puts the
    formatted stack trace in error_message: what encode_error_response
    returns is the encoding of the ErrorResponse that carries the trace,
    and the document it serializes is the envelope of that response's
    payload. *)
Theorem error_response_privacy (self : MessageProtocol) (exc : pyexception)
    (format_exc : string) :
  exc_is_CleanError exc && preserve_clean_errors self = false ->
  (trusted_sender self = false ->
     err_response self exc format_exc =
       new_ErrorResponse "An unknown error has occurred." OTHER /\
     (enc_error self exc format_exc).2 =
       enc_response self
         (new_ErrorResponse "An unknown error has occurred." OTHER) /\
     forall (exc' : pyexception) (format_exc' : string),
       exc_is_CleanError exc' && preserve_clean_errors self = false ->
       (enc_error self exc format_exc).2 =
       (enc_error self exc' format_exc').2)
  /\
  (trusted_sender self = true ->
     err_response self exc format_exc = new_ErrorResponse format_exc OTHER /\
     getattr (err_response self exc format_exc) "error_message" =
       inr (PStr format_exc) /\
     (enc_error self exc format_exc).2 =
       enc_response self (new_ErrorResponse format_exc OTHER) /\
     forall (i : Z) (d : pydict),
       response_ids_by_type self !! ErrorResponse = Some i ->
       dataclass_to_dict (new_ErrorResponse format_exc OTHER) = inr d ->
       frameable (_type_key self) d ->
       (enc_error self exc format_exc).2 =
         json_dumps (envelope (_type_key self) i d)).
Proof.
  intros Hc. split.
  - intros Ht.
    assert (E : forall x f,
               exc_is_CleanError x && preserve_clean_errors self = false ->
               err_response self x f =
                 new_ErrorResponse "An unknown error has occurred." OTHER).
    { intros x f Hx. unfold err_response. now rewrite Hx, Ht. }
    split; [now apply E|]. split.
    + unfold enc_error, encode_error_response. simpl. now rewrite E.
    + intros exc' f' Hc'. unfold enc_error, encode_error_response. simpl.
      now rewrite !E.
  - intros Ht.
    assert (E : err_response self exc format_exc =
                new_ErrorResponse format_exc OTHER).
    { unfold err_response. now rewrite Hc, Ht. }
    split; [exact E|]. split; [now rewrite E|]. split.
    + unfold enc_error, encode_error_response. simpl. now rewrite E.
    + intros i d Hi Hd Hf.
      unfold enc_error, encode_error_response, encode_response. simpl.
      rewrite E.
      now rewrite (_encode_envelope dataclass_to_dict json_dumps self
                     (new_ErrorResponse format_exc OTHER) _ "response" i d
                     Hi Hd Hf).
Qed.

(** C3 (amended).  Clean error round trip: with preserve_clean_errors
    enabled, ErrorResponse registered, and a type key (if any) that is not
    a field of the serialized ErrorResponse, encoding a clean failure with
    message s and decoding the wire string raises CleanError with exactly
    s; no response value is returned. *)
Theorem clean_error_roundtrip (self : MessageProtocol) (i : Z) (s : string)
    (format_exc : string) (d : pydict) :
  preserve_clean_errors self = true ->
  registered (response_types_by_id self) (response_ids_by_type self)
    ErrorResponse i ->
  dataclass_to_dict (new_ErrorResponse s CLEAN) = inr d ->
  dataclass_from_dict ErrorResponse (PDict d) = inr (new_ErrorResponse s CLEAN) ->
  frameable (_type_key self) d ->
  transports json_dumps json_loads (envelope (_type_key self) i d) ->
  exists w,
    (enc_error self (PyException true s) format_exc).2 = inr w /\
    dec_response self w = inl (CleanError (PStr s)).
Proof.
  intros Hp [Hi Ht] Hd Hb Hf (w & Hw & Hr). exists w. split.
  - unfold enc_error, encode_error_response, encode_response, err_response.
    simpl. rewrite Hp. simpl.
    now rewrite (_encode_envelope dataclass_to_dict json_dumps self
                   (new_ErrorResponse s CLEAN) _ "response" i d Hi Hd Hf).
  - unfold dec_response, decode_response.
    rewrite (_decode_split _ _ _ _ _ _ _ _ _ _ _ Hr
               (split_envelope_envelope _ _ _ Hf)).
    rewrite Ht, Hb. simpl. rewrite assert_true, Hp. reflexivity.
Qed.

(** C4.  Empty collapse: decode_response after encode_response of
    EmptyResponse() returns None, and so does decode_response on every
    well-formed envelope whose payload decodes to an EmptyResponse
    instance. *)
Theorem empty_response_collapses (self : MessageProtocol) :
  (forall i : Z,
      registered (response_types_by_id self) (response_ids_by_type self)
        EmptyResponse i ->
      dataclass_to_dict new_EmptyResponse = inr [] ->
      dataclass_from_dict EmptyResponse (PDict []) = inr new_EmptyResponse ->
      transports json_dumps json_loads (envelope (_type_key self) i []) ->
      exists w, enc_response self new_EmptyResponse = inr w /\
                dec_response self w = inr None)
  /\
  (forall (data : string) (msgfull : pyval) (z : Z) (p : pydict) (c : cls)
          (out : pyobj),
      json_loads data = inr msgfull ->
      split_envelope (_type_key self) msgfull = Some (z, p) ->
      response_types_by_id self !! z = Some c ->
      dataclass_from_dict c (PDict p) = inr out ->
      isinstance_EmptyResponse user_class out = true ->
      dec_response self data = inr None).
Proof.
  assert (G : forall (data : string) (msgfull : pyval) (z : Z) (p : pydict)
                     (c : cls) (out : pyobj),
      json_loads data = inr msgfull ->
      split_envelope (_type_key self) msgfull = Some (z, p) ->
      response_types_by_id self !! z = Some c ->
      dataclass_from_dict c (PDict p) = inr out ->
      isinstance_EmptyResponse user_class out = true ->
      dec_response self data = inr None).
  { intros data msgfull z p c out Hl Hs Hz Hd He.
    unfold dec_response, decode_response.
    rewrite (_decode_empty _ _ _ _ _ _ _ _ _ _ _ _ _ Hl Hs Hz Hd He).
    simpl. now rewrite assert_true. }
  split; [|exact G].
  intros i [Hi Ht] Hd Hb (w & Hw & Hr).
  assert (Hf : frameable (_type_key self) []) by (intros k _; reflexivity).
  exists w. split.
  - unfold enc_response, encode_response.
    now rewrite (_encode_envelope dataclass_to_dict json_dumps self
                   new_EmptyResponse _ "response" i [] Hi Hd Hf).
  - eapply G; eauto using split_envelope_envelope.
Qed.

(** C5.  Inline collision: under inline framing, encoding a registered
    message whose serialized payload already holds the type key raises
    RuntimeError (the key collision failure); no wire string is
    returned. *)
Theorem encode_message_key_collision (self : MessageProtocol)
    (message : pyobj) (type_key : string) (m_id : Z) (msgdict : pydict) :
  _type_key self = Some type_key ->
  message_ids_by_type self !! obj_type message = Some m_id ->
  dataclass_to_dict message = inr msgdict ->
  Dict.contains type_key msgdict = true ->
  enc_message self message =
    inl (RuntimeError ("Type-key " ++ type_key ++ " found in msg of type " ++
                       repr_cls (obj_type message))) /\
  forall w, enc_message self message <> inr w.
Proof.
  intros Hk Hi Hd Hc.
  assert (E : enc_message self message =
    inl (RuntimeError ("Type-key " ++ type_key ++ " found in msg of type " ++
                       repr_cls (obj_type message)))).
  { unfold enc_message, encode_message, _encode.
    rewrite Hi, Hd. simpl. now rewrite Hk, Hc. }
  split; [exact E|]. intros w. rewrite E. discriminate.
Qed.

End Codec.

(** ** Registries *)

Lemma has_key_true {K} `{Countable K} {A} (k : K) (d : gmap K A) :
  has_key k d = true <-> is_Some (d !! k).
Proof.
  unfold has_key. destruct (d !! k); simpl; split; intros; eauto.
  - discriminate.
  - destruct H0; discriminate.
Qed.

Lemma has_key_false {K} `{Countable K} {A} (k : K) (d : gmap K A) :
  has_key k d = false <-> d !! k = None.
Proof.
  unfold has_key. destruct (d !! k); simpl; split; intros; congruence.
Qed.

Lemma foldl_reg_types (l : list (Z * cls)) (r : registry) (i : Z) (t : cls) :
  (foldl reg_insert r l).1 !! i = Some t ->
  r.1 !! i = Some t \/ (i, t) ∈ l.
Proof.
  revert r. induction l as [|[j u] l IH]; intros r; simpl; [auto|].
  intros H. apply IH in H as [H|H]; [|right; now right].
  simpl in H. destruct (decide (j = i)) as [->|Hne].
  - rewrite lookup_insert_eq in H. injection H as ->. right. left.
  - rewrite lookup_insert_ne in H by done. now left.
Qed.

Lemma foldl_reg_ids (l : list (Z * cls)) (r : registry) (i : Z) (t : cls) :
  (foldl reg_insert r l).2 !! t = Some i ->
  r.2 !! t = Some i \/ (i, t) ∈ l.
Proof.
  revert r. induction l as [|[j u] l IH]; intros r; simpl; [auto|].
  intros H. apply IH in H as [H|H]; [|right; now right].
  simpl in H. destruct (decide (u = t)) as [->|Hne].
  - rewrite lookup_insert_eq in H. injection H as ->. right. left.
  - rewrite lookup_insert_ne in H by done. now left.
Qed.

Lemma foldl_reg_dom (l : list (Z * cls)) (r : registry) :
  dom (foldl reg_insert r l).2 = dom r.2 ∪ list_to_set l.*2.
Proof.
  revert r. induction l as [|[j u] l IH]; intros r; simpl.
  - set_solver.
  - rewrite IH. simpl. rewrite dom_insert_L. set_solver.
Qed.

Lemma foldl_reg_absent (l : list (Z * cls)) (r : registry) (i : Z) :
  r.1 !! i = None -> i ∉ l.*1 -> (foldl reg_insert r l).1 !! i = None.
Proof.
  intros Hr Hl. destruct ((foldl reg_insert r l).1 !! i) as [t|] eqn:E; [|done].
  apply foldl_reg_types in E as [E|E]; [congruence|].
  exfalso. apply Hl. apply list_elem_of_fmap. now exists (i, t).
Qed.

Lemma reg_insert_consistent (r : registry) (it : Z * cls) :
  consistent r -> r.1 !! it.1 = None -> consistent (reg_insert r it).
Proof.
  destruct it as [j u]. intros Hc Hf t i. simpl in *.
  destruct (decide (u = t)) as [->|Hne].
  - rewrite lookup_insert_eq. intros [= ->]. apply lookup_insert_eq.
  - rewrite lookup_insert_ne by done. intros H.
    assert (j <> i) by (intros ->; apply Hc in H; congruence).
    rewrite lookup_insert_ne by done. now apply Hc.
Qed.

Lemma foldl_reg_consistent (l : list (Z * cls)) (r : registry) :
  consistent r -> fresh_ids r l -> consistent (foldl reg_insert r l).
Proof.
  revert r. induction l as [|it l IH]; intros r Hc Hf; simpl; [done|].
  destruct Hf as [Hf Hl]. apply IH; [|done].
  now apply reg_insert_consistent.
Qed.

Lemma fresh_ids_NoDup (l : list (Z * cls)) (r : registry) :
  NoDup l.*1 -> (forall i, i ∈ l.*1 -> r.1 !! i = None) -> fresh_ids r l.
Proof.
  revert r. induction l as [|[j u] l IH]; intros r Hn Hr; simpl; [done|].
  simpl in Hn. apply list.NoDup_cons in Hn as [Hj Hn]. split.
  - apply Hr. simpl. left.
  - apply IH; [done|]. intros i Hi. simpl.
    rewrite lookup_insert_ne by (intros ->; contradiction).
    apply Hr. simpl. now right.
Qed.

Lemma consistent_empty : consistent (∅, ∅).
Proof. intros t i. simpl. now rewrite lookup_empty. Qed.

Lemma reg_builtin_consistent (r : registry) (tp : cls) (i : Z) :
  consistent r -> r.1 !! i = None -> consistent (reg_builtin r tp i).
Proof.
  intros Hc Hf. unfold reg_builtin. destruct (has_key tp r.2); [done|].
  now apply reg_insert_consistent.
Qed.

(** ** Construction *)

Lemma for_each_inl {S X} (body : S -> X -> result S) (P : exn -> Prop) :
  (forall s x e, body s x = inl e -> P e) ->
  forall xs s e, for_each body xs s = inl e -> P e.
Proof.
  intros Hb xs. induction xs as [|x xs IH]; intros s e; simpl; [discriminate|].
  intros H. apply bind_inl in H as [H|(s' & _ & H)]; eauto.
Qed.

Ltac bind_inv H :=
  repeat match type of H with
         | bind _ _ = inr _ =>
             let a := fresh "u" in
             let Ha := fresh "Hstep" in
             apply bind_inr in H as (a & Ha & H)
         | ret _ = inr _ => injection H as H
         | inr _ = inr _ => injection H as H
         end.

Section Construction.

Variable py_debug : bool.
Variable user_class : string -> class_decl.

Let is_message_class (c : cls) : bool :=
  is_ioprepped_dataclass user_class c && issubclass_Message user_class c.
Let is_response_class (c : cls) : bool :=
  is_ioprepped_dataclass user_class c && issubclass_Response user_class c.

Lemma register_message_inr (self self' : MessageProtocol) (it : Z * cls) :
  register_message py_debug user_class self it = inr self' ->
  self' = set_message_type self it.1 it.2 /\
  (py_debug = true ->
     0 <= it.1 /\ is_message_class it.2 = true /\
     message_types_by_id self !! it.1 = None).
Proof.
  destruct it as [i t]. unfold register_message. intros H. bind_inv H.
  split; [done|]. intros Hd. unfold assert_ in *.
  apply assert_msg_inr in Hstep, Hstep0, Hstep1; try done.
  simpl. repeat split; [now apply Z.leb_le|done|].
  now destruct (message_types_by_id self !! i).
Qed.

Lemma register_response_inr (self self' : MessageProtocol) (it : Z * cls) :
  register_response py_debug user_class self it = inr self' ->
  self' = set_response_type self it.1 it.2 /\
  (py_debug = true ->
     0 <= it.1 /\ is_response_class it.2 = true /\
     response_types_by_id self !! it.1 = None).
Proof.
  destruct it as [i t]. unfold register_response. intros H. bind_inv H.
  split; [done|]. intros Hd. unfold assert_ in *.
  apply assert_msg_inr in Hstep, Hstep0, Hstep1; try done.
  simpl. repeat split; [now apply Z.leb_le|done|].
  now destruct (response_types_by_id self !! i).
Qed.

Lemma register_messages_inr (l : list (Z * cls)) (s s' : MessageProtocol) :
  for_each (register_message py_debug user_class) l s = inr s' ->
  msg_reg s' = foldl reg_insert (msg_reg s) l /\
  resp_reg s' = resp_reg s /\
  protocol_config s' = protocol_config s /\
  (py_debug = true ->
     fresh_ids (msg_reg s) l /\
     Forall (fun it => 0 <= it.1) l /\
     Forall (fun it => is_message_class it.2 = true) l).
Proof.
  revert s. induction l as [|it l IH]; intros s; simpl.
  - intros [= <-]. repeat split; constructor.
  - intros H. apply bind_inr in H as (s1 & H1 & H).
    apply register_message_inr in H1 as [-> Hdbg].
    apply IH in H as (Hm & Hr & Hc & Hd).
    repeat split; try done.
    + now apply Hdbg.
    + now apply Hd.
    + constructor; [now apply Hdbg | now apply Hd].
    + constructor; [now apply Hdbg | now apply Hd].
Qed.

Lemma register_responses_inr (l : list (Z * cls)) (s s' : MessageProtocol) :
  for_each (register_response py_debug user_class) l s = inr s' ->
  resp_reg s' = foldl reg_insert (resp_reg s) l /\
  msg_reg s' = msg_reg s /\
  protocol_config s' = protocol_config s /\
  (py_debug = true ->
     fresh_ids (resp_reg s) l /\
     Forall (fun it => 0 <= it.1) l /\
     Forall (fun it => is_response_class it.2 = true) l).
Proof.
  revert s. induction l as [|it l IH]; intros s; simpl.
  - intros [= <-]. repeat split; constructor.
  - intros H. apply bind_inr in H as (s1 & H1 & H).
    apply register_response_inr in H1 as [-> Hdbg].
    apply IH in H as (Hm & Hr & Hc & Hd).
    repeat split; try done.
    + now apply Hdbg.
    + now apply Hd.
    + constructor; [now apply Hdbg | now apply Hd].
    + constructor; [now apply Hdbg | now apply Hd].
Qed.

Lemma _reg_if_not_inr (self self' : MessageProtocol) (reg_tp : cls) (reg_id : Z) :
  _reg_if_not py_debug self reg_tp reg_id = inr self' ->
  resp_reg self' = reg_builtin (resp_reg self) reg_tp reg_id /\
  msg_reg self' = msg_reg self /\
  protocol_config self' = protocol_config self.
Proof.
  unfold _reg_if_not, reg_builtin. simpl.
  destruct (has_key reg_tp (response_ids_by_type self)).
  - now intros [= <-].
  - intros H. bind_inv H. now subst self'.
Qed.

Lemma collect_response_types_inr (l : list (Z * cls)) (acc acc' : gset cls) :
  for_each (collect_response_types py_debug user_class) l acc = inr acc' ->
  acc ⊆ acc' /\
  forall it r, it ∈ l -> r ∈ decl_response_types (class_of user_class it.2) ->
               r ∈ acc'.
Proof.
  revert acc. induction l as [|[i t] l IH]; intros acc; simpl.
  - intros [= <-]. split; [done|]. intros it r Hit. inversion Hit.
  - intros H. apply bind_inr in H as (a1 & H1 & H).
    unfold collect_response_types in H1. bind_inv H1. subst a1.
    apply IH in H as [Hsub Hall]. split; [set_solver|].
    intros it r Hit Hr. apply elem_of_cons in Hit as [->|Hit].
    + apply Hsub. simpl in Hr. set_solver.
    + now apply (Hall it).
Qed.

Lemma check_response_types_inr (xs : list cls) (s s' : MessageProtocol) :
  for_each (check_response_type py_debug user_class) xs s = inr s' ->
  s' = s /\ forall c, c ∈ xs -> has_key c (response_ids_by_type s) = true.
Proof.
  induction xs as [|x xs IH]; simpl.
  - intros [= <-]. split; [done|]. intros c Hc. inversion Hc.
  - intros H. apply bind_inr in H as (s1 & H1 & H).
    unfold check_response_type in H1. bind_inv H1.
    destruct (has_key x (response_ids_by_type s)) eqn:Hk; [|discriminate].
    injection H1 as <-. apply IH in H as [-> Hall]. split; [done|].
    intros c Hc. apply elem_of_cons in Hc as [->|Hc]; auto.
Qed.

Lemma debug_validation_inr (s s' : MessageProtocol) (l : list (Z * cls)) :
  debug_validation py_debug user_class s l = inr s' ->
  s' = s /\
  (forall it r, it ∈ l -> r ∈ decl_response_types (class_of user_class it.2) ->
                has_key r (response_ids_by_type s) = true) /\
  size (mtypenames user_class s) = length l.
Proof.
  unfold debug_validation. intros H.
  apply bind_inr in H as (acc & Hacc & H).
  apply bind_inr in H as (s1 & Hs1 & H).
  apply collect_response_types_inr in Hacc as [_ Hall].
  apply check_response_types_inr in Hs1 as [-> Hchk].
  destruct (Nat.eqb (size (mtypenames user_class s)) (length l)) eqn:E;
    [|discriminate].
  injection H as <-. split; [done|]. split.
  - intros it r Hit Hr. apply Hchk. apply elem_of_elements. eauto.
  - now apply Nat.eqb_eq.
Qed.

Ltac config_error H :=
  repeat match type of H with
         | bind _ _ = inl _ =>
             let a := fresh "u" in
             let Ha := fresh "Hstep" in
             apply bind_inl in H as [H|(a & Ha & H)]
         | assert_ _ _ = inl _ => unfold assert_ in H
         | assert_msg _ _ _ = inl _ => apply assert_inl in H; subst; reflexivity
         | raise _ = inl _ => injection H as <-; reflexivity
         | inl _ = inl _ => injection H as <-; reflexivity
         | ret _ = inl _ => discriminate H
         end.

Lemma register_message_inl (self : MessageProtocol) (it : Z * cls) (e : exn) :
  register_message py_debug user_class self it = inl e ->
  is_config_error e = true.
Proof.
  destruct it as [i t]. unfold register_message. intros H. config_error H.
Qed.

Lemma register_response_inl (self : MessageProtocol) (it : Z * cls) (e : exn) :
  register_response py_debug user_class self it = inl e ->
  is_config_error e = true.
Proof.
  destruct it as [i t]. unfold register_response. intros H. config_error H.
Qed.

Lemma _reg_if_not_inl (self : MessageProtocol) (tp : cls) (i : Z) (e : exn) :
  _reg_if_not py_debug self tp i = inl e -> is_config_error e = true.
Proof.
  unfold _reg_if_not. destruct (has_key tp (response_ids_by_type self));
    intros H; config_error H.
Qed.

Lemma debug_validation_inl (s : MessageProtocol) (l : list (Z * cls)) (e : exn) :
  debug_validation py_debug user_class s l = inl e ->
  is_config_error e = true.
Proof.
  unfold debug_validation. intros H.
  apply bind_inl in H as [H|(acc & _ & H)].
  { revert H. apply (for_each_inl _ (fun x => is_config_error x = true)). intros a [i t] e' H'.
    unfold collect_response_types in H'. config_error H'. }
  apply bind_inl in H as [H|(s1 & _ & H)].
  { revert H. apply (for_each_inl _ (fun x => is_config_error x = true)). intros a c e' H'.
    unfold check_response_type in H'. config_error H'.
    destruct (has_key c (response_ids_by_type a)); config_error H'. }
  destruct (negb _); config_error H.
Qed.

(** A failed construction raises AssertionError or ValueError. *)
Lemma __init___inl (message_types response_types : list (Z * cls))
    (type_key : option string) (pce lre ts : bool) (e : exn) :
  __init__ py_debug user_class message_types response_types type_key
    pce lre ts = inl e ->
  is_config_error e = true.
Proof.
  unfold __init__. intros H.
  apply bind_inl in H as [H|(s1 & _ & H)].
  { revert H. apply (for_each_inl _ (fun x => is_config_error x = true)). intros. eapply register_message_inl; eauto. }
  apply bind_inl in H as [H|(s2 & _ & H)].
  { revert H. apply (for_each_inl _ (fun x => is_config_error x = true)). intros. eapply register_response_inl; eauto. }
  apply bind_inl in H as [H|(s3 & _ & H)].
  { eapply _reg_if_not_inl; eauto. }
  apply bind_inl in H as [H|(s4 & _ & H)].
  { eapply _reg_if_not_inl; eauto. }
  pose proof (debug_validation_inl s4 message_types e) as G.
  destruct py_debug; [now apply G | discriminate].
Qed.

(** The registries of a constructed protocol, and what the executed
    assertions and the debug-mode validation establish. *)
Lemma __init___inr (message_types response_types : list (Z * cls))
    (type_key : option string) (pce lre ts : bool) (self : MessageProtocol) :
  __init__ py_debug user_class message_types response_types type_key
    pce lre ts = inr self ->
  msg_reg self = foldl reg_insert (∅, ∅) message_types /\
  resp_reg self =
    reg_builtin
      (reg_builtin (foldl reg_insert (∅, ∅) response_types) ErrorResponse (-1))
      EmptyResponse (-2) /\
  protocol_config self = (type_key, pce, lre, ts) /\
  (py_debug = true ->
     loop_checked is_message_class message_types /\
     loop_checked is_response_class response_types /\
     (forall it r,
         it ∈ message_types ->
         r ∈ decl_response_types (class_of user_class it.2) ->
         has_key r (response_ids_by_type self) = true) /\
     size (mtypenames user_class self) = length message_types).
Proof.
  unfold __init__. intros H.
  apply bind_inr in H as (s1 & H1 & H).
  apply bind_inr in H as (s2 & H2 & H).
  apply bind_inr in H as (s3 & H3 & H).
  apply bind_inr in H as (s4 & H4 & H).
  apply register_messages_inr in H1 as (M1 & R1 & C1 & D1).
  apply register_responses_inr in H2 as (R2 & M2 & C2 & D2).
  apply _reg_if_not_inr in H3 as (R3 & M3 & C3).
  apply _reg_if_not_inr in H4 as (R4 & M4 & C4).
  assert (Hm : msg_reg s4 = foldl reg_insert (∅, ∅) message_types).
  { now rewrite M4, M3, M2, M1. }
  assert (Hr : resp_reg s4 =
    reg_builtin
      (reg_builtin (foldl reg_insert (∅, ∅) response_types) ErrorResponse (-1))
      EmptyResponse (-2)).
  { now rewrite R4, R3, R2, R1. }
  assert (Hc : protocol_config s4 = (type_key, pce, lre, ts)).
  { now rewrite C4, C3, C2, C1. }
  pose proof (debug_validation_inr s4 self message_types) as G.
  destruct py_debug eqn:Hdbg.
  - apply G in H as (-> & Hall & Hsz).
    split; [done|]. split; [done|]. split; [done|]. intros _.
    specialize (D1 eq_refl). specialize (D2 eq_refl). rewrite R1 in D2.
    split; [exact D1|]. split; [exact D2|]. split; [exact Hall|exact Hsz].
  - injection H as <-.
    split; [done|]. split; [done|]. split; [done|]. discriminate.
Qed.

End Construction.

(** ** Counting names *)

Lemma size_list_to_set_le `{Countable A} (l : list A) :
  (size (list_to_set l : gset A) <= length l)%nat.
Proof.
  induction l as [|x l IH].
  - rewrite list_to_set_nil, size_empty. simpl. lia.
  - rewrite list_to_set_cons, size_union_alt, size_singleton. simpl.
    assert (size (list_to_set l ∖ {[x]} : gset A) <= size (list_to_set l : gset A))%nat
      by (apply subseteq_size; set_solver).
    lia.
Qed.

Lemma elem_of_image `{Countable A} `{Countable B} (f : A -> B) (X : gset A) (y : B) :
  y ∈ (list_to_set (f <$> elements X) : gset B) <-> exists x, x ∈ X /\ y = f x.
Proof.
  rewrite elem_of_list_to_set, list_elem_of_fmap.
  split; intros (x & Hx & Hy); exists x.
  - split; [now apply elem_of_elements|done].
  - split; [done|now apply elem_of_elements].
Qed.

Lemma size_image_le `{Countable A} `{Countable B} (f : A -> B) (X : gset A) :
  (size (list_to_set (f <$> elements X) : gset B) <= size X)%nat.
Proof.
  etrans; [apply size_list_to_set_le|]. now rewrite length_fmap.
Qed.

(** Two distinct elements with the same image make the image smaller. *)
Lemma size_image_collision `{Countable A} `{Countable B} (f : A -> B)
    (X : gset A) (a b : A) :
  a ∈ X -> b ∈ X -> a <> b -> f a = f b ->
  (size (list_to_set (f <$> elements X) : gset B) < size X)%nat.
Proof.
  intros Ha Hb Hne Hf.
  assert (E : (list_to_set (f <$> elements X) : gset B) =
              list_to_set (f <$> elements (X ∖ {[a]}))).
  { apply set_eq. intros y. rewrite !elem_of_image. split.
    - intros (x & Hx & ->). destruct (decide (x = a)) as [->|Hxa].
      + exists b. split; [set_solver|done].
      + exists x. split; [set_solver|done].
    - intros (x & Hx & ->). exists x. split; [set_solver|done]. }
  rewrite E.
  assert (S1 : (size (list_to_set (f <$> elements (X ∖ {[a]})) : gset B)
                <= size (X ∖ {[a]}))%nat) by apply size_image_le.
  assert (S2 : size (X ∖ {[a]}) = (size X - size ({[a]} : gset A))%nat)
    by (apply size_difference; set_solver).
  rewrite size_singleton in S2.
  assert (size X <> 0)%nat.
  { intros Hz. apply size_empty_inv in Hz. set_solver. }
  lia.
Qed.

(** ** The built-in responses in the registry *)

Lemma reg_builtin_dom (r : registry) (tp : cls) (i : Z) :
  dom (reg_builtin r tp i).2 = dom r.2 ∪ {[tp]}.
Proof.
  unfold reg_builtin. destruct (has_key tp r.2) eqn:E.
  - apply has_key_true, elem_of_dom in E. set_solver.
  - simpl. rewrite dom_insert_L. set_solver.
Qed.

Lemma reg_builtin_spec (r : registry) (tp : cls) (i : Z) :
  consistent r -> r.1 !! i = None ->
  consistent (reg_builtin r tp i) /\
  (r.2 !! tp = None ->
     (reg_builtin r tp i).2 !! tp = Some i /\
     (reg_builtin r tp i).1 !! i = Some tp) /\
  (forall j, r.2 !! tp = Some j -> reg_builtin r tp i = r) /\
  (forall t, t <> tp -> (reg_builtin r tp i).2 !! t = r.2 !! t) /\
  (forall j, j <> i -> (reg_builtin r tp i).1 !! j = r.1 !! j).
Proof.
  intros Hc Hf. split; [now apply reg_builtin_consistent|].
  unfold reg_builtin, has_key. destruct (r.2 !! tp) as [j|] eqn:E; simpl.
  - repeat split; try done.
  - split; [intros _; split; apply lookup_insert_eq|].
    split; [discriminate|].
    split; intros x Hx; now apply lookup_insert_ne.
Qed.

Lemma builtin_chain (r1 : registry) :
  consistent r1 -> r1.1 !! (-1) = None -> r1.1 !! (-2) = None ->
  let r := reg_builtin (reg_builtin r1 ErrorResponse (-1)) EmptyResponse (-2) in
  (r1.2 !! ErrorResponse = None ->
     r.2 !! ErrorResponse = Some (-1) /\ r.1 !! (-1) = Some ErrorResponse) /\
  (forall i, r1.2 !! ErrorResponse = Some i ->
     r.2 !! ErrorResponse = Some i /\ r.1 !! i = Some ErrorResponse /\
     r.1 !! (-1) = None) /\
  (r1.2 !! EmptyResponse = None ->
     r.2 !! EmptyResponse = Some (-2) /\ r.1 !! (-2) = Some EmptyResponse) /\
  (forall i, r1.2 !! EmptyResponse = Some i ->
     r.2 !! EmptyResponse = Some i /\ r.1 !! i = Some EmptyResponse /\
     r.1 !! (-2) = None).
Proof.
  intros Hc H1 H2.
  destruct (reg_builtin_spec r1 ErrorResponse (-1) Hc H1)
    as (Hc' & Anew & Aold & Aids & Atypes).
  set (r' := reg_builtin r1 ErrorResponse (-1)) in *.
  assert (H2' : r'.1 !! (-2) = None) by (now rewrite Atypes).
  destruct (reg_builtin_spec r' EmptyResponse (-2) Hc' H2')
    as (_ & Bnew & Bold & Bids & Btypes).
  cbv zeta. set (r := reg_builtin r' EmptyResponse (-2)) in *.
  repeat split.
  - rewrite Bids by done. now apply Anew.
  - rewrite Btypes by done. now apply Anew.
  - rewrite Bids by done. now rewrite (Aold i).
  - assert (Hi : r1.1 !! i = Some ErrorResponse) by now apply Hc.
    rewrite Btypes by congruence. now rewrite (Aold i).
  - rewrite Btypes by done. now rewrite (Aold i).
  - apply Bnew. now rewrite Aids.
  - apply Bnew. now rewrite Aids.
  - rewrite (Bold i); rewrite Aids; done.
  - assert (Hi : r'.2 !! EmptyResponse = Some i) by (now rewrite Aids).
    rewrite (Bold i Hi). now apply Hc'.
  - assert (Hi : r'.2 !! EmptyResponse = Some i) by (now rewrite Aids).
    now rewrite (Bold i Hi).
Qed.

Lemma Dict_get_pop (k : string) (d : pydict) (v : pyval) :
  Dict.get k d = Some v -> exists d', Dict.pop k d = Some (v, d').
Proof.
  induction d as [|[k' v'] d IH]; simpl; [discriminate|].
  destruct (String.eqb k k').
  - intros [= ->]. eauto.
  - intros H. destruct (IH H) as (d' & ->). eauto.
Qed.

Lemma ids_checked (py_debug : bool) (ok : cls -> bool) (l : list (Z * cls)) :
  (py_debug = true -> loop_checked ok l) ->
  ids_as_required py_debug l ->
  fresh_ids (∅, ∅) l /\ Forall (fun it => 0 <= it.1) l.
Proof.
  intros Hd [Ht|[Hn Hu]].
  - destruct (Hd Ht) as (? & ? & _). done.
  - split; [|done]. apply fresh_ids_NoDup; [done|].
    intros i _. apply lookup_empty.
Qed.

Lemma nonneg_ids_absent (l : list (Z * cls)) (i : Z) :
  Forall (fun it => 0 <= it.1) l -> i < 0 ->
  (foldl reg_insert (∅, ∅) l).1 !! i = None.
Proof.
  intros Hn Hi. apply foldl_reg_absent; [apply lookup_empty|].
  intros Hin. apply list_elem_of_fmap in Hin as ([j t] & -> & Hin).
  rewrite list.Forall_forall in Hn. apply Hn in Hin. simpl in *. lia.
Qed.

(** ** The claims about construction and about rejected input *)

Section Claims.

Variable user_class : string -> class_decl.
Variable dataclass_from_dict : cls -> pyval -> result pyobj.
Variable json_loads : string -> result pyval.

(** With assertions executed, [_decode] raises AssertionError or KeyError on
    a malformed envelope, whatever the registry. *)
Lemma _decode_malformed (self : MessageProtocol) (data : string)
    (msgfull : pyval) (types_by_id : gmap Z cls) (opname : string) :
  json_loads data = inr msgfull ->
  malformed_envelope (_type_key self) msgfull = true ->
  exists e,
    _decode true user_class dataclass_from_dict json_loads self data
      types_by_id opname = inl e /\
    is_envelope_error e = true.
Proof.
  intros Hl Hm. unfold _decode. rewrite Hl. simpl bind.
  unfold assert_. rewrite !assert_debug_true.
  destruct msgfull as [| | | | |d|]; simpl;
    try (eexists; split; reflexivity).
  unfold malformed_envelope in Hm.
  destruct (_type_key self) as [k|].
  - destruct (Dict.get k d) as [v|] eqn:G.
    + destruct (Dict_get_pop _ _ _ G) as (d' & ->). simpl.
      rewrite assert_debug_true.
      destruct (isinstance_int v); [discriminate|].
      eexists; split; reflexivity.
    + apply Dict_pop_get in G. rewrite G. simpl.
      eexists; split; reflexivity.
  - simpl. destruct (Dict.get "t" d) as [v|], (Dict.get "m" d) as [x|]; simpl;
      rewrite ?assert_debug_true; simpl in Hm.
    + destruct (isinstance_int v); simpl in *;
        [|eexists; split; reflexivity].
      destruct (isinstance_dict x); [discriminate|].
      eexists; split; reflexivity.
    + destruct (isinstance_int v); simpl;
        eexists; split; reflexivity.
    + eexists; split; reflexivity.
    + eexists; split; reflexivity.
Qed.

(** C6.  Unknown id: on a well-formed envelope whose integer id is absent
    from the message map, decode_message raises UnregisteredMessageIDError,
    and so does decode_response for an id absent from the response map; in a
    constructed protocol whose message ids are non-negative as required, the
    reserved ids -1 and -2 are absent from the message map, so an envelope
    carrying one of them is rejected by decode_message in this way. *)
Theorem unknown_id_rejected (py_debug : bool)
    (message_types response_types : list (Z * cls))
    (type_key : option string) (pce lre ts : bool) (self : MessageProtocol)
    (data : string) (msgfull : pyval) (z : Z) (p : pydict) :
  __init__ py_debug user_class message_types response_types type_key
    pce lre ts = inr self ->
  ids_as_required py_debug message_types ->
  json_loads data = inr msgfull ->
  split_envelope type_key msgfull = Some (z, p) ->
  (message_types_by_id self !! z = None ->
     decode_message py_debug user_class dataclass_from_dict json_loads
       self data = inl (UnregisteredMessageIDError "message" (PInt z))) /\
  (response_types_by_id self !! z = None ->
     decode_response py_debug user_class dataclass_from_dict json_loads
       self data = inl (UnregisteredMessageIDError "response" (PInt z))) /\
  message_types_by_id self !! (-1) = None /\
  message_types_by_id self !! (-2) = None /\
  (z = -1 \/ z = -2 ->
     decode_message py_debug user_class dataclass_from_dict json_loads
       self data = inl (UnregisteredMessageIDError "message" (PInt z))).
Proof.
  intros Hinit Hreq Hl Hs.
  apply __init___inr in Hinit as (Hm & Hr & Hc & Hd).
  assert (Hk : _type_key self = type_key).
  { unfold protocol_config in Hc. congruence. }
  rewrite <- Hk in Hs.
  assert (Hmsg : message_types_by_id self !! z = None ->
            decode_message py_debug user_class dataclass_from_dict json_loads
              self data = inl (UnregisteredMessageIDError "message" (PInt z))).
  { intros Hz. unfold decode_message.
    now rewrite (_decode_unregistered _ _ _ _ _ _ _ _ _ _ _ Hl Hs Hz). }
  assert (Hnn : Forall (fun it => 0 <= it.1) message_types).
  { eapply ids_checked; [|exact Hreq]. intros Ht. now apply Hd. }
  assert (Habs : forall i, i < 0 -> message_types_by_id self !! i = None).
  { intros i Hi. change (message_types_by_id self) with (msg_reg self).1.
    rewrite Hm. now apply nonneg_ids_absent. }
  split; [exact Hmsg|]. split.
  { intros Hz. unfold decode_response.
    now rewrite (_decode_unregistered _ _ _ _ _ _ _ _ _ _ _ Hl Hs Hz). }
  split; [apply Habs; lia|]. split; [apply Habs; lia|].
  intros Hz. apply Hmsg. apply Habs. lia.
Qed.

(** C7 (amended).  Malformed envelope: with assertions executed
    (__debug__ true), for every input whose parsed envelope is not a
    dictionary, or lacks the id, or has an id that is not an int for
    isinstance, or (wrapper framing) lacks the payload or has a payload that
    is not a dict, decode_message and decode_response raise AssertionError
    or, for a missing inline type key, KeyError: never
    UnregisteredMessageIDError, never a value. *)
Theorem malformed_envelope_rejected (self : MessageProtocol) (data : string)
    (msgfull : pyval) :
  json_loads data = inr msgfull ->
  malformed_envelope (_type_key self) msgfull = true ->
  (exists e,
     decode_message true user_class dataclass_from_dict json_loads self data
       = inl e /\ is_envelope_error e = true) /\
  (exists e,
     decode_response true user_class dataclass_from_dict json_loads self data
       = inl e /\ is_envelope_error e = true).
Proof.
  intros Hl Hm. split.
  - destruct (_decode_malformed self data msgfull (message_types_by_id self)
                "message" Hl Hm) as (e & He & Hc).
    exists e. split; [|done]. unfold decode_message. now rewrite He.
  - destruct (_decode_malformed self data msgfull (response_types_by_id self)
                "response" Hl Hm) as (e & He & Hc).
    exists e. split; [|done]. unfold decode_response. now rewrite He.
Qed.

End Claims.

Section ConstructionClaims.

Variable user_class : string -> class_decl.

(** C8 (amended).  Response coverage: with __debug__ true, constructing a
    protocol in which a registered message type declares a response type
    that is neither built in nor listed in response_types raises
    AssertionError or ValueError; no protocol is returned. *)
Theorem missing_response_type_rejected
    (message_types response_types : list (Z * cls))
    (type_key : option string) (pce lre ts : bool)
    (m_id : Z) (m_type r : cls) :
  (m_id, m_type) ∈ message_types ->
  r ∈ decl_response_types (class_of user_class m_type) ->
  r <> ErrorResponse -> r <> EmptyResponse ->
  r ∉ response_types.*2 ->
  exists e,
    __init__ true user_class message_types response_types type_key
      pce lre ts = inl e /\
    is_config_error e = true.
Proof.
  intros Hm Hr Hne1 Hne2 Hnot.
  destruct (__init__ true user_class message_types response_types type_key
              pce lre ts) as [e|self] eqn:E.
  - exists e. split; [done|]. eapply __init___inl; eauto.
  - exfalso. apply __init___inr in E as (_ & Hreg & _ & Hd).
    destruct (Hd eq_refl) as (_ & _ & Hall & _).
    specialize (Hall (m_id, m_type) r Hm Hr).
    apply has_key_true, elem_of_dom in Hall.
    change (response_ids_by_type self) with (resp_reg self).2 in Hall.
    rewrite Hreg, !reg_builtin_dom, foldl_reg_dom in Hall. simpl in Hall.
    rewrite dom_empty_L in Hall.
    apply elem_of_union in Hall as [Hall|Hall]; [|set_solver].
    apply elem_of_union in Hall as [Hall|Hall]; [|set_solver].
    apply elem_of_union in Hall as [Hall|Hall]; [set_solver|].
    apply elem_of_list_to_set in Hall. contradiction.
Qed.

(** C9.  Built-in registration: in a constructed protocol whose response
    ids respect the requirement of being non-negative (it is asserted),
    every user-supplied response id is non-negative, and ErrorResponse is
    registered at -1 and EmptyResponse at -2, unless the caller listed the
    class, in which case it is registered at a caller's id and nothing is
    registered at the reserved id. *)
Theorem builtin_responses_registered (py_debug : bool)
    (message_types response_types : list (Z * cls))
    (type_key : option string) (pce lre ts : bool) (self : MessageProtocol) :
  __init__ py_debug user_class message_types response_types type_key
    pce lre ts = inr self ->
  ids_as_required py_debug response_types ->
  Forall (fun it => 0 <= it.1) response_types /\
  builtin_registered self response_types ErrorResponse (-1) /\
  builtin_registered self response_types EmptyResponse (-2).
Proof.
  intros Hinit Hreq.
  apply __init___inr in Hinit as (_ & Hr & _ & Hd).
  destruct (ids_checked py_debug _ response_types
              (fun Ht => proj1 (proj2 (Hd Ht))) Hreq) as [Hfresh Hnn].
  set (r1 := foldl reg_insert (∅, ∅) response_types) in *.
  assert (Hc : consistent r1)
    by (apply foldl_reg_consistent; [apply consistent_empty|done]).
  assert (H1 : r1.1 !! (-1) = None) by (apply nonneg_ids_absent; [done|lia]).
  assert (H2 : r1.1 !! (-2) = None) by (apply nonneg_ids_absent; [done|lia]).
  destruct (builtin_chain r1 Hc H1 H2) as (Enew & Eold & Mnew & Mold).
  rewrite <- Hr in Enew, Eold, Mnew, Mold. simpl in Enew, Eold, Mnew, Mold.
  assert (Hdom : forall b, b ∉ response_types.*2 -> r1.2 !! b = None).
  { intros b Hb. apply not_elem_of_dom. unfold r1.
    rewrite foldl_reg_dom. simpl. rewrite dom_empty_L.
    rewrite elem_of_union, elem_of_list_to_set. set_solver. }
  assert (Hin : forall b, b ∈ response_types.*2 ->
            exists i, (i, b) ∈ response_types /\ 0 <= i /\ r1.2 !! b = Some i).
  { intros b Hb.
    assert (Hs : is_Some (r1.2 !! b)).
    { apply elem_of_dom. unfold r1. rewrite foldl_reg_dom. simpl.
      rewrite elem_of_union, elem_of_list_to_set. now right. }
    destruct Hs as [i Hi]. exists i.
    destruct (foldl_reg_ids _ _ _ _ Hi) as [Habs|Hmem].
    - simpl in Habs. now rewrite lookup_empty in Habs.
    - rewrite list.Forall_forall in Hnn. split; [done|]. split; [|done].
      apply (Hnn _ Hmem). }
  split; [done|]. unfold builtin_registered, registered. repeat split.
  - now apply Enew, Hdom.
  - now apply Enew, Hdom.
  - intros Hb. destruct (Hin _ Hb) as (i & Hmem & Hi & Hl).
    exists i. destruct (Eold i Hl) as (? & ? & ?).
    repeat split; try done. lia.
  - now apply Mnew, Hdom.
  - now apply Mnew, Hdom.
  - intros Hb. destruct (Hin _ Hb) as (i & Hmem & Hi & Hl).
    exists i. destruct (Mold i Hl) as (? & ? & ?).
    repeat split; try done. lia.
Qed.

(** C10 (amended).  Unique names: with __debug__ true, constructing a
    protocol whose message_types lists two distinct classes with the same
    __name__ raises AssertionError or ValueError, also when the ids are
    unique and every other check passes. *)
Theorem duplicate_names_rejected
    (message_types response_types : list (Z * cls))
    (type_key : option string) (pce lre ts : bool)
    (i j : Z) (a b : cls) :
  (i, a) ∈ message_types ->
  (j, b) ∈ message_types ->
  a <> b ->
  decl_name (class_of user_class a) = decl_name (class_of user_class b) ->
  exists e,
    __init__ true user_class message_types response_types type_key
      pce lre ts = inl e /\
    is_config_error e = true.
Proof.
  intros Ha Hb Hne Hname.
  destruct (__init__ true user_class message_types response_types type_key
              pce lre ts) as [e|self] eqn:E.
  - exists e. split; [done|]. eapply __init___inl; eauto.
  - exfalso. apply __init___inr in E as (Hm & _ & _ & Hd).
    destruct (Hd eq_refl) as (_ & _ & _ & Hsz).
    assert (Hdom : dom (message_ids_by_type self) = list_to_set message_types.*2).
    { change (message_ids_by_type self) with (msg_reg self).2.
      rewrite Hm, foldl_reg_dom. simpl. rewrite dom_empty_L. set_solver. }
    assert (Hin : forall x c, (x, c) ∈ message_types ->
                    c ∈ dom (message_ids_by_type self)).
    { intros x c Hx. rewrite Hdom, elem_of_list_to_set.
      apply list_elem_of_fmap. now exists (x, c). }
    pose proof (size_image_collision
                  (fun tp => decl_name (class_of user_class tp))
                  (dom (message_ids_by_type self)) a b
                  (Hin _ _ Ha) (Hin _ _ Hb) Hne Hname) as Hlt.
    unfold mtypenames in Hsz. rewrite Hsz in Hlt.
    assert (size (dom (message_ids_by_type self)) <= length message_types)%nat.
    { rewrite Hdom. etrans; [apply size_list_to_set_le|].
      now rewrite length_fmap. }
    lia.
Qed.

(** In a constructed protocol whose ids are as required, every class
    registered under an id is the class found under that id, so the
    hypothesis [registered] of the codec theorems holds for every class the
    encoder accepts. *)
Lemma __init___consistent (py_debug : bool)
    (message_types response_types : list (Z * cls))
    (type_key : option string) (pce lre ts : bool) (self : MessageProtocol) :
  __init__ py_debug user_class message_types response_types type_key
    pce lre ts = inr self ->
  ids_as_required py_debug message_types ->
  ids_as_required py_debug response_types ->
  (forall c i, message_ids_by_type self !! c = Some i ->
     registered (message_types_by_id self) (message_ids_by_type self) c i) /\
  (forall c i, response_ids_by_type self !! c = Some i ->
     registered (response_types_by_id self) (response_ids_by_type self) c i).
Proof.
  intros Hinit Hm Hr.
  apply __init___inr in Hinit as (Em & Er & _ & Hd).
  destruct (ids_checked py_debug _ message_types
              (fun Ht => proj1 (Hd Ht)) Hm) as [Fm _].
  destruct (ids_checked py_debug _ response_types
              (fun Ht => proj1 (proj2 (Hd Ht))) Hr) as [Fr Nr].
  assert (Cm : consistent (msg_reg self)).
  { rewrite Em. apply foldl_reg_consistent; [apply consistent_empty|done]. }
  assert (Cr : consistent (resp_reg self)).
  { rewrite Er.
    assert (C1 : consistent (foldl reg_insert (∅, ∅) response_types))
      by (apply foldl_reg_consistent; [apply consistent_empty|done]).
    assert (A1 : (foldl reg_insert (∅, ∅) response_types).1 !! (-1) = None)
      by (apply nonneg_ids_absent; [done|lia]).
    assert (A2 : (foldl reg_insert (∅, ∅) response_types).1 !! (-2) = None)
      by (apply nonneg_ids_absent; [done|lia]).
    destruct (reg_builtin_spec _ ErrorResponse (-1) C1 A1)
      as (C2 & _ & _ & _ & T2).
    apply reg_builtin_consistent; [done|]. now rewrite T2. }
  split; intros c i Hc; (split; [done|]).
  - now apply Cm.
  - now apply Cr.
Qed.

End ConstructionClaims.

(** * Further properties of construction *)

Lemma for_each_total {S X} (body : S -> X -> result S) :
  (forall s x, exists s', body s x = inr s') ->
  forall xs s, exists s', for_each body xs s = inr s'.
Proof.
  intros Hb xs. induction xs as [|x xs IH]; intros s; simpl; [eauto|].
  destruct (Hb s x) as (s1 & ->). simpl. apply IH.
Qed.

Lemma foldl_reg_last (l : list (Z * cls)) (r : registry) (c : cls) :
  (foldl reg_insert r l).2 !! c =
    match last_id c l with
    | Some j => Some j
    | None => r.2 !! c
    end.
Proof.
  revert r. induction l as [|[i t] l IH]; intros r; simpl; [done|].
  rewrite IH. destruct (last_id c l); [done|]. simpl.
  destruct (decide (t = c)) as [->|Hne].
  - apply lookup_insert_eq.
  - now apply lookup_insert_ne.
Qed.

Lemma foldl_reg_keeps (l : list (Z * cls)) (r : registry) (i : Z) (c : cls) :
  fresh_ids r l -> r.1 !! i = Some c ->
  (foldl reg_insert r l).1 !! i = Some c.
Proof.
  revert r. induction l as [|[j t] l IH]; intros r Hf Hr; simpl; [done|].
  destruct Hf as [Hj Hf]. apply IH; [done|]. simpl in *.
  rewrite lookup_insert_ne; [done|]. intros ->. congruence.
Qed.

Lemma foldl_reg_listed (l : list (Z * cls)) (r : registry) (i : Z) (c : cls) :
  fresh_ids r l -> (i, c) ∈ l -> (foldl reg_insert r l).1 !! i = Some c.
Proof.
  revert r. induction l as [|[j t] l IH]; intros r Hf Hin; simpl.
  - inversion Hin.
  - destruct Hf as [Hj Hf]. apply elem_of_cons in Hin as [[= -> ->]|Hin].
    + apply foldl_reg_keeps; [done|]. simpl. apply lookup_insert_eq.
    + now apply IH.
Qed.

Lemma reg_builtin_types_ne (r : registry) (tp : cls) (i j : Z) :
  j <> i -> (reg_builtin r tp i).1 !! j = r.1 !! j.
Proof.
  intros Hne. unfold reg_builtin. destruct (has_key tp r.2); [done|].
  simpl. now apply lookup_insert_ne.
Qed.

Lemma reg_builtin_ids_keep (r : registry) (tp c : cls) (i : Z) :
  is_Some (r.2 !! c) -> (reg_builtin r tp i).2 !! c = r.2 !! c.
Proof.
  intros Hc. unfold reg_builtin. destruct (has_key tp r.2) eqn:E; [done|].
  simpl. apply lookup_insert_ne. intros ->.
  apply has_key_false in E. rewrite E in Hc. now destruct Hc.
Qed.

Section ConstructionProperties.

Variable user_class : string -> class_decl.

Lemma __init___unchecked (message_types response_types : list (Z * cls))
    (type_key : option string) (pce lre ts : bool) :
  exists self,
    __init__ false user_class message_types response_types type_key
      pce lre ts = inr self /\
    protocol_config self = (type_key, pce, lre, ts).
Proof.
  unfold __init__.
  destruct (for_each_total (register_message false user_class)
              (fun s x => ltac:(destruct x; eexists; reflexivity))
              message_types
              (mkMessageProtocol ∅ ∅ ∅ ∅ type_key pce lre ts))
    as (s1 & H1).
  destruct (for_each_total (register_response false user_class)
              (fun s x => ltac:(destruct x; eexists; reflexivity))
              response_types s1) as (s2 & H2).
  rewrite H1. simpl. rewrite H2. simpl.
  assert (Hreg : forall s tp i, exists s',
            _reg_if_not false s tp i = inr s' /\
            protocol_config s' = protocol_config s).
  { intros s tp i. unfold _reg_if_not.
    destruct (has_key tp (response_ids_by_type s)); eexists; split;
      reflexivity. }
  destruct (Hreg s2 ErrorResponse (-1)) as (s3 & H3 & C3).
  destruct (Hreg s3 EmptyResponse (-2)) as (s4 & H4 & C4).
  rewrite H3. simpl. rewrite H4. simpl. exists s4. split; [done|].
  apply register_messages_inr in H1 as (_ & _ & C1 & _).
  apply register_responses_inr in H2 as (_ & _ & C2 & _).
  now rewrite C4, C3, C2, C1.
Qed.

(** X4.  Without assertions (__debug__ false) the constructor checks
    nothing: it returns a protocol for every pair of dictionaries, also
    with negative ids or classes that are no messages; the protocol holds
    the configuration it was given and encodes every message class under
    the id of its last listing. *)
Theorem init_unchecked_total (message_types response_types : list (Z * cls))
    (type_key : option string) (pce lre ts : bool) :
  exists self,
    __init__ false user_class message_types response_types type_key
      pce lre ts = inr self /\
    protocol_config self = (type_key, pce, lre, ts) /\
    forall c, message_ids_by_type self !! c = last_id c message_types.
Proof.
  destruct (__init___unchecked message_types response_types type_key
              pce lre ts) as (self & Hs & Hc).
  exists self. split; [done|]. split; [done|]. intros c.
  apply __init___inr in Hs as (Em & _).
  change (message_ids_by_type self) with (msg_reg self).2.
  rewrite Em, foldl_reg_last. simpl. rewrite lookup_empty.
  now destruct (last_id c message_types).
Qed.

(** X17.  A construction fails only with assertions executed, and then
    with AssertionError or ValueError. *)
Theorem construction_failure_kind (py_debug : bool)
    (message_types response_types : list (Z * cls))
    (type_key : option string) (pce lre ts : bool) (e : exn) :
  __init__ py_debug user_class message_types response_types type_key
    pce lre ts = inl e ->
  py_debug = true /\ is_config_error e = true.
Proof.
  intros H. split; [|eapply __init___inl; eauto].
  destruct py_debug; [done|].
  destruct (__init___unchecked message_types response_types type_key
              pce lre ts) as (self & Hs & _).
  congruence.
Qed.

(** X3.  The two namespaces are separate: the message maps of a constructed
    protocol depend on message_types only, and the response maps on
    response_types only, whatever the other dictionary, the configuration
    and the interpreter flag are. *)
Theorem registries_independent (d1 d2 : bool)
    (mt1 rt1 mt2 rt2 : list (Z * cls)) (tk1 tk2 : option string)
    (a1 b1 c1 a2 b2 c2 : bool) (s1 s2 : MessageProtocol) :
  __init__ d1 user_class mt1 rt1 tk1 a1 b1 c1 = inr s1 ->
  __init__ d2 user_class mt2 rt2 tk2 a2 b2 c2 = inr s2 ->
  (mt1 = mt2 ->
     message_types_by_id s1 = message_types_by_id s2 /\
     message_ids_by_type s1 = message_ids_by_type s2) /\
  (rt1 = rt2 ->
     response_types_by_id s1 = response_types_by_id s2 /\
     response_ids_by_type s1 = response_ids_by_type s2).
Proof.
  intros H1 H2.
  apply __init___inr in H1 as (M1 & R1 & _).
  apply __init___inr in H2 as (M2 & R2 & _).
  split; intros ->.
  - rewrite <- M2 in M1. unfold msg_reg in M1. now injection M1.
  - rewrite <- R2 in R1. unfold resp_reg in R1. now injection R1.
Qed.

(** X2.  In a constructed protocol whose ids are as required, every listed
    id leads to its class, a message class is encoded under the id of its
    last listing, and so is every listed response class. *)
Theorem listed_classes_registered (py_debug : bool)
    (message_types response_types : list (Z * cls))
    (type_key : option string) (pce lre ts : bool) (self : MessageProtocol) :
  __init__ py_debug user_class message_types response_types type_key
    pce lre ts = inr self ->
  ids_as_required py_debug message_types ->
  ids_as_required py_debug response_types ->
  (forall i c, (i, c) ∈ message_types ->
     message_types_by_id self !! i = Some c) /\
  (forall c, message_ids_by_type self !! c = last_id c message_types) /\
  (forall i c, (i, c) ∈ response_types ->
     response_types_by_id self !! i = Some c) /\
  (forall c, c ∈ response_types.*2 ->
     response_ids_by_type self !! c = last_id c response_types).
Proof.
  intros Hinit Hm Hr.
  apply __init___inr in Hinit as (Em & Er & _ & Hd).
  destruct (ids_checked py_debug _ message_types
              (fun Ht => proj1 (Hd Ht)) Hm) as [Fm _].
  destruct (ids_checked py_debug _ response_types
              (fun Ht => proj1 (proj2 (Hd Ht))) Hr) as [Fr Nr].
  assert (Tm : message_types_by_id self = (foldl reg_insert (∅, ∅) message_types).1)
    by (now rewrite <- Em).
  assert (Im : message_ids_by_type self = (foldl reg_insert (∅, ∅) message_types).2)
    by (now rewrite <- Em).
  assert (Tr : response_types_by_id self = (resp_reg self).1) by done.
  assert (Ir : response_ids_by_type self = (resp_reg self).2) by done.
  split; [|split; [|split]].
  - intros i c Hin. rewrite Tm. now apply foldl_reg_listed.
  - intros c. rewrite Im, foldl_reg_last. simpl.
    rewrite lookup_empty. now destruct (last_id c message_types).
  - intros i c Hin. rewrite Tr, Er.
    assert (0 <= i).
    { rewrite list.Forall_forall in Nr. apply (Nr _ Hin). }
    rewrite !reg_builtin_types_ne by lia. now apply foldl_reg_listed.
  - intros c Hc. rewrite Ir, Er.
    assert (Hs : is_Some ((foldl reg_insert (∅, ∅) response_types).2 !! c)).
    { apply elem_of_dom. rewrite foldl_reg_dom. simpl.
      rewrite elem_of_union, elem_of_list_to_set. now right. }
    rewrite reg_builtin_ids_keep.
    + rewrite reg_builtin_ids_keep by done.
      rewrite foldl_reg_last. simpl. rewrite lookup_empty.
      now destruct (last_id c response_types).
    + now rewrite reg_builtin_ids_keep.
Qed.

End ConstructionProperties.

Section EncodingProperties.

Variable user_class : string -> class_decl.
Variable dataclass_to_dict : pyobj -> result pydict.
Variable json_dumps : pyval -> result string.

(** X1.  In a constructed protocol, whatever the mode, an instance of a
    class that message_types does not list is refused by encode_message with
    TypeError before the serializer is consulted; encode_response refuses in
    the same way every class that response_types does not list, except the
    two built-in responses, which are always registered. *)
Theorem unlisted_class_not_encoded (py_debug : bool)
    (message_types response_types : list (Z * cls))
    (type_key : option string) (pce lre ts : bool) (self : MessageProtocol) :
  __init__ py_debug user_class message_types response_types type_key
    pce lre ts = inr self ->
  (forall o, obj_type o ∉ message_types.*2 ->
     encode_message dataclass_to_dict json_dumps self o =
       inl (TypeError ("message type is not registered in protocol: " ++
                       repr_cls (obj_type o)))) /\
  (forall o, obj_type o ∉ response_types.*2 ->
     obj_type o <> ErrorResponse -> obj_type o <> EmptyResponse ->
     encode_response dataclass_to_dict json_dumps self o =
       inl (TypeError ("response type is not registered in protocol: " ++
                       repr_cls (obj_type o)))) /\
  is_Some (response_ids_by_type self !! ErrorResponse) /\
  is_Some (response_ids_by_type self !! EmptyResponse).
Proof.
  intros Hinit. apply __init___inr in Hinit as (Em & Er & _).
  assert (Dm : dom (message_ids_by_type self) = list_to_set message_types.*2).
  { change (message_ids_by_type self) with (msg_reg self).2.
    rewrite Em, foldl_reg_dom. simpl. rewrite dom_empty_L. set_solver. }
  assert (Dr : dom (response_ids_by_type self) =
               list_to_set response_types.*2 ∪ {[ErrorResponse]}
                 ∪ {[EmptyResponse]}).
  { change (response_ids_by_type self) with (resp_reg self).2.
    rewrite Er, !reg_builtin_dom, foldl_reg_dom. simpl.
    rewrite dom_empty_L. set_solver. }
  split; [|split; [|split]].
  - intros o Ho. unfold encode_message, _encode.
    assert (E : message_ids_by_type self !! obj_type o = None).
    { apply not_elem_of_dom. rewrite Dm, elem_of_list_to_set. done. }
    now rewrite E.
  - intros o Ho H1 H2. unfold encode_response, _encode.
    assert (E : response_ids_by_type self !! obj_type o = None).
    { apply not_elem_of_dom. rewrite Dr.
      rewrite !elem_of_union, elem_of_list_to_set, !elem_of_singleton.
      tauto. }
    now rewrite E.
  - apply elem_of_dom. rewrite Dr. set_solver.
  - apply elem_of_dom. rewrite Dr. set_solver.
Qed.

End EncodingProperties.

(** * What a checked construction guarantees *)

Lemma size_list_to_set_NoDup `{Countable A} (l : list A) :
  size (list_to_set l : gset A) = length l -> NoDup l.
Proof.
  induction l as [|x l IH]; [constructor|].
  rewrite list_to_set_cons, size_union_alt, size_singleton. simpl.
  intros Hs.
  pose proof (size_list_to_set_le l) as Hle.
  assert (Hsub : (size (list_to_set l ∖ {[x]} : gset A)
                  <= size (list_to_set l : gset A))%nat)
    by (apply subseteq_size; set_solver).
  apply list.NoDup_cons. split.
  - intros Hx.
    assert (Hd : size (list_to_set l ∖ {[x]} : gset A) =
                 (size (list_to_set l : gset A) - size ({[x]} : gset A))%nat).
    { apply size_difference. apply singleton_subseteq_l.
      now apply elem_of_list_to_set. }
    rewrite size_singleton in Hd.
    assert (size (list_to_set l : gset A) <> 0)%nat.
    { intros Hz. apply size_empty_inv in Hz.
      assert (x ∈ (list_to_set l : gset A)) by now apply elem_of_list_to_set.
      set_solver. }
    lia.
  - apply IH. lia.
Qed.

Lemma fresh_ids_keys (l : list (Z * cls)) (r : registry) :
  fresh_ids r l -> NoDup l.*1 /\ forall i, i ∈ l.*1 -> r.1 !! i = None.
Proof.
  revert r. induction l as [|[j t] l IH]; intros r; simpl.
  - intros _. split; [constructor|]. intros i Hi. inversion Hi.
  - intros [Hj Hf]. destruct (IH _ Hf) as [Hn Ha]. simpl in *.
    assert (Hjl : j ∉ l.*1).
    { intros Hin. specialize (Ha j Hin). now rewrite lookup_insert_eq in Ha. }
    split; [apply list.NoDup_cons; done|].
    intros i Hi. apply elem_of_cons in Hi as [->|Hi]; [done|].
    specialize (Ha i Hi).
    rewrite lookup_insert_ne in Ha; [done|]. intros ->. contradiction.
Qed.

Section CheckedConstruction.

Variable user_class : string -> class_decl.

Lemma collect_response_types_checked (l : list (Z * cls)) (acc acc' : gset cls) :
  for_each (collect_response_types true user_class) l acc = inr acc' ->
  forall it, it ∈ l ->
    decl_response_types (class_of user_class it.2) <> [] /\
    NoDup (decl_response_types (class_of user_class it.2)).
Proof.
  revert acc. induction l as [|[i t] l IH]; intros acc; simpl.
  - intros _ it Hit. inversion Hit.
  - intros H. apply bind_inr in H as (a1 & H1 & H).
    unfold collect_response_types in H1.
    apply bind_inr in H1 as (u1 & A1 & H1).
    apply bind_inr in H1 as (u2 & A2 & H1).
    apply assert_msg_inr in A1; [|done].
    unfold assert_ in A2. apply assert_msg_inr in A2; [|done].
    intros it Hit. apply elem_of_cons in Hit as [->|Hit]; [|eauto].
    simpl. split.
    + intros E. rewrite E in A1. discriminate.
    + apply size_list_to_set_NoDup. now apply Nat.eqb_eq.
Qed.

Lemma check_response_types_checked (xs : list cls) (s s' : MessageProtocol) :
  for_each (check_response_type true user_class) xs s = inr s' ->
  forall c, c ∈ xs ->
    is_ioprepped_dataclass user_class c = true /\
    issubclass_Response user_class c = true.
Proof.
  revert s. induction xs as [|x xs IH]; intros s; simpl.
  - intros _ c Hc. inversion Hc.
  - intros H. apply bind_inr in H as (s1 & H1 & H).
    unfold check_response_type in H1.
    apply bind_inr in H1 as (u1 & A1 & H1).
    apply bind_inr in H1 as (u2 & A2 & H1).
    unfold assert_ in A1, A2.
    apply assert_msg_inr in A1; [|done].
    apply assert_msg_inr in A2; [|done].
    intros c Hc. apply elem_of_cons in Hc as [->|Hc]; [done|eauto].
Qed.

(** X5.  A construction that succeeds with __debug__ true has message
    classes with pairwise distinct __name__s; in particular no message class
    is listed under two ids. *)
Theorem checked_names_distinct
    (message_types response_types : list (Z * cls))
    (type_key : option string) (pce lre ts : bool) (self : MessageProtocol) :
  __init__ true user_class message_types response_types type_key
    pce lre ts = inr self ->
  NoDup ((fun it => decl_name (class_of user_class it.2)) <$> message_types) /\
  NoDup message_types.*2.
Proof.
  intros Hinit. apply __init___inr in Hinit as (Em & _ & _ & Hd).
  destruct (Hd eq_refl) as (_ & _ & _ & Hsz).
  assert (Hdom : dom (message_ids_by_type self) = list_to_set message_types.*2).
  { change (message_ids_by_type self) with (msg_reg self).2.
    rewrite Em, foldl_reg_dom. simpl. rewrite dom_empty_L. set_solver. }
  set (name := fun tp => decl_name (class_of user_class tp)).
  assert (Hset : mtypenames user_class self =
                 list_to_set (name <$> message_types.*2)).
  { unfold mtypenames. apply set_eq. intros y.
    rewrite elem_of_image, Hdom, elem_of_list_to_set, list_elem_of_fmap.
    split; intros (x & Hx & Hy); exists x.
    - split; [done|]. now apply elem_of_list_to_set in Hx.
    - split; [now apply elem_of_list_to_set|done]. }
  assert (Hn : NoDup (name <$> message_types.*2)).
  { apply size_list_to_set_NoDup. rewrite <- Hset, Hsz.
    now rewrite !length_fmap. }
  split.
  - now rewrite <- list_fmap_compose in Hn.
  - now apply NoDup_fmap_1 in Hn.
Qed.

(** X6.  A construction that succeeds with __debug__ true has only
    non-negative, pairwise distinct ids in each dictionary, only io-prepared
    subclasses of Message in message_types and only io-prepared subclasses
    of Response in response_types. *)
Theorem checked_types_valid
    (message_types response_types : list (Z * cls))
    (type_key : option string) (pce lre ts : bool) (self : MessageProtocol) :
  __init__ true user_class message_types response_types type_key
    pce lre ts = inr self ->
  (NoDup message_types.*1 /\
   Forall (fun it => 0 <= it.1 /\
             is_ioprepped_dataclass user_class it.2 = true /\
             issubclass_Message user_class it.2 = true) message_types) /\
  (NoDup response_types.*1 /\
   Forall (fun it => 0 <= it.1 /\
             is_ioprepped_dataclass user_class it.2 = true /\
             issubclass_Response user_class it.2 = true) response_types).
Proof.
  intros Hinit. apply __init___inr in Hinit as (_ & _ & _ & Hd).
  destruct (Hd eq_refl) as ((Fm & Nm & Om) & (Fr & Nr & Or) & _).
  split; (split; [eapply fresh_ids_keys; eauto|]).
  - rewrite list.Forall_forall in *. intros it Hit.
    specialize (Nm it Hit). specialize (Om it Hit). simpl in Om.
    apply andb_true_iff in Om. tauto.
  - rewrite list.Forall_forall in *. intros it Hit.
    specialize (Nr it Hit). specialize (Or it Hit). simpl in Or.
    apply andb_true_iff in Or. tauto.
Qed.

(** X7.  A construction that succeeds with __debug__ true is closed under
    declared responses: every listed message class declares a non-empty
    list of response classes without repetition, and each of them is an
    io-prepared subclass of Response that encode_response accepts. *)
Theorem checked_responses_covered
    (message_types response_types : list (Z * cls))
    (type_key : option string) (pce lre ts : bool) (self : MessageProtocol)
    (m_id : Z) (m_type : cls) :
  __init__ true user_class message_types response_types type_key
    pce lre ts = inr self ->
  (m_id, m_type) ∈ message_types ->
  decl_response_types (class_of user_class m_type) <> [] /\
  NoDup (decl_response_types (class_of user_class m_type)) /\
  forall r, r ∈ decl_response_types (class_of user_class m_type) ->
    is_ioprepped_dataclass user_class r = true /\
    issubclass_Response user_class r = true /\
    is_Some (response_ids_by_type self !! r).
Proof.
  intros Hinit Hin.
  pose proof (__init___inr _ _ _ _ _ _ _ _ _ Hinit) as (_ & _ & _ & Hd).
  destruct (Hd eq_refl) as (_ & _ & Hall & _).
  unfold __init__ in Hinit.
  apply bind_inr in Hinit as (s1 & _ & Hinit).
  apply bind_inr in Hinit as (s2 & _ & Hinit).
  apply bind_inr in Hinit as (s3 & _ & Hinit).
  apply bind_inr in Hinit as (s4 & _ & Hinit).
  unfold debug_validation in Hinit.
  apply bind_inr in Hinit as (acc & Hacc & Hinit).
  apply bind_inr in Hinit as (s5 & Hchk & _).
  destruct (collect_response_types_checked _ _ _ Hacc _ Hin) as [Hne Hnd].
  split; [done|]. split; [done|]. intros r Hr.
  apply collect_response_types_inr in Hacc as [_ Hmem].
  specialize (Hmem (m_id, m_type) r Hin Hr).
  destruct (check_response_types_checked _ _ _ Hchk r) as [Hio Hsub].
  { now apply elem_of_elements. }
  split; [done|]. split; [done|].
  apply has_key_true. now apply (Hall (m_id, m_type)).
Qed.

End CheckedConstruction.

(** * Further properties of decoding *)

Lemma Dict_get_set_ne (k k' : string) (v : pyval) (d : pydict) :
  k <> k' -> Dict.get k' (Dict.set k v d) = Dict.get k' d.
Proof.
  intros Hne. induction d as [|[k0 v0] d IH]; simpl.
  - destruct (String.eqb k' k) eqn:E; [|done].
    apply String.eqb_eq in E. congruence.
  - destruct (String.eqb k k0) eqn:E; simpl.
    + apply String.eqb_eq in E. subst k0.
      destruct (String.eqb k' k) eqn:E'; [|done].
      apply String.eqb_eq in E'. congruence.
    + now rewrite IH.
Qed.

Lemma id_value_accepted (v : pyval) :
  isinstance_int v = true -> exists z, id_value v = Some z.
Proof. destruct v; simpl; try discriminate; eauto. Qed.

Section DecodingProperties.

Variable py_debug : bool.
Variable user_class : string -> class_decl.
Variable dataclass_from_dict : cls -> pyval -> result pyobj.
Variable json_loads : string -> result pyval.

(** On an envelope that passes the assertions, [_decode] looks the id value
    up as the integer it stands for. *)
Lemma _decode_accepted (self : MessageProtocol) (data : string)
    (types_by_id : gmap Z cls) (opname : string) (msgfull v : pyval)
    (z : Z) (p : pydict) :
  json_loads data = inr msgfull ->
  accepted_envelope (_type_key self) msgfull = Some (v, p) ->
  id_value v = Some z ->
  _decode py_debug user_class dataclass_from_dict json_loads self data
    types_by_id opname =
    match types_by_id !! z with
    | None => raise (UnregisteredMessageIDError opname v)
    | Some msgtype =>
        out <- dataclass_from_dict msgtype (PDict p) ;;
        if isinstance_EmptyResponse user_class out then ret None
        else if isinstance_ErrorResponse user_class out then
          assert_ py_debug (String.eqb opname "response") ;;;
          clean <- (if preserve_clean_errors self
                    then error_type <- getattr out "error_type" ;;
                         ret (is_CLEAN error_type)
                    else ret false) ;;
          error_message <- getattr out "error_message" ;;
          if clean then raise (CleanError error_message)
          else raise (RemoteError error_message)
        else ret (Some out)
    end.
Proof.
  intros Hl Ha Hz. unfold _decode. rewrite Hl. simpl bind.
  unfold accepted_envelope in Ha.
  destruct msgfull as [| | | | |d|]; try discriminate.
  simpl isinstance_dict. rewrite assert_true. simpl bind.
  destruct (_type_key self) as [k|].
  - simpl py_pop. destruct (Dict.pop k d) as [[x d']|]; [|discriminate].
    destruct (isinstance_int x) eqn:Ei; [|discriminate].
    injection Ha as -> ->.
    destruct v; simpl in Hz; try discriminate; injection Hz as <-;
      simpl; repeat (rewrite assert_true; simpl); reflexivity.
  - simpl py_get.
    destruct (Dict.get "t" d) as [x|]; [|discriminate].
    destruct (Dict.get "m" d) as [y|]; [|discriminate].
    destruct y; try discriminate.
    destruct (isinstance_int x) eqn:Ei; [|discriminate].
    injection Ha as -> ->.
    destruct v; simpl in Hz; try discriminate; injection Hz as <-;
      simpl; repeat (rewrite assert_true; simpl); reflexivity.
Qed.

(** A value returned by [_decode] is never an instance of one of the two
    built-in responses. *)
Lemma _decode_inr (self : MessageProtocol) (data : string)
    (types_by_id : gmap Z cls) (opname : string) (o : pyobj) :
  _decode py_debug user_class dataclass_from_dict json_loads self data
    types_by_id opname = inr (Some o) ->
  isinstance_EmptyResponse user_class o = false /\
  isinstance_ErrorResponse user_class o = false.
Proof.
  unfold _decode. intros H.
  apply bind_inr in H as (msgfull & _ & H).
  apply bind_inr in H as (u1 & _ & H).
  apply bind_inr in H as ([m_id msgdict] & _ & H).
  apply bind_inr in H as (u2 & _ & H).
  apply bind_inr in H as (u3 & _ & H).
  apply bind_inr in H as (msgtype & _ & H).
  destruct msgtype as [msgtype|]; [|discriminate].
  apply bind_inr in H as (out & _ & H).
  destruct (isinstance_EmptyResponse user_class out) eqn:Ee; [discriminate|].
  destruct (isinstance_ErrorResponse user_class out) eqn:Ex.
  - apply bind_inr in H as (u4 & _ & H).
    apply bind_inr in H as (clean & _ & H).
    apply bind_inr in H as (msg & _ & H).
    destruct clean; discriminate.
  - injection H as <-. done.
Qed.

(** X8.  decode_response never returns an instance of EmptyResponse or of
    ErrorResponse, whatever the input; with assertions executed, a value it
    returns is an instance of a subclass of Response. *)
Theorem decode_response_value (self : MessageProtocol) (data : string)
    (o : pyobj) :
  decode_response py_debug user_class dataclass_from_dict json_loads
    self data = inr (Some o) ->
  isinstance_EmptyResponse user_class o = false /\
  isinstance_ErrorResponse user_class o = false /\
  (py_debug = true -> issubclass_Response user_class (obj_type o) = true).
Proof.
  unfold decode_response. intros H.
  apply bind_inr in H as (r & Hr & H).
  apply bind_inr in H as (u & Ha & H). injection H as ->.
  destruct (_decode_inr _ _ _ _ _ Hr) as [He Hx].
  split; [done|]. split; [done|]. intros Hd.
  unfold assert_ in Ha. now apply assert_msg_inr in Ha.
Qed.

(** X9.  An envelope whose id is the JSON value true or false passes the
    assertion on the id (a bool is an int) and is looked up as the id 1 or 0:
    an unregistered one is reported with the boolean, a registered one is
    decoded as the message registered under 1 or 0. *)
Theorem boolean_id_decoded (self : MessageProtocol) (data : string)
    (msgfull : pyval) (b : bool) (p : pydict) :
  json_loads data = inr msgfull ->
  accepted_envelope (_type_key self) msgfull = Some (PBool b, p) ->
  (message_types_by_id self !! (if b then 1 else 0) = None ->
     decode_message py_debug user_class dataclass_from_dict json_loads
       self data = inl (UnregisteredMessageIDError "message" (PBool b))) /\
  (forall c out,
     message_types_by_id self !! (if b then 1 else 0) = Some c ->
     dataclass_from_dict c (PDict p) = inr out ->
     issubclass_Message user_class (obj_type out) = true ->
     decode_message py_debug user_class dataclass_from_dict json_loads
       self data = inr (Some out)).
Proof.
  intros Hl Ha. split.
  - intros Hz. unfold decode_message.
    rewrite (_decode_accepted _ _ _ _ _ _ _ _ Hl Ha eq_refl), Hz.
    reflexivity.
  - intros c out Hz Hd Hm. unfold decode_message.
    rewrite (_decode_accepted _ _ _ _ _ _ _ _ Hl Ha eq_refl), Hz, Hd.
    simpl. unfold isinstance_EmptyResponse, isinstance_ErrorResponse.
    unfold issubclass_Message in Hm.
    destruct (decl_base (class_of user_class (obj_type out))) eqn:Eb;
      try discriminate.
    simpl. unfold issubclass_Message. rewrite Eb, assert_true. reflexivity.
Qed.

End DecodingProperties.

Section CheckedDecoding.

Variable user_class : string -> class_decl.
Variable dataclass_from_dict : cls -> pyval -> result pyobj.
Variable json_loads : string -> result pyval.

(** X10.  With assertions executed, decode_message returns only instances
    of subclasses of Message, never None. *)
Theorem decode_message_value (self : MessageProtocol) (data : string)
    (r : option pyobj) :
  decode_message true user_class dataclass_from_dict json_loads
    self data = inr r ->
  exists o, r = Some o /\ issubclass_Message user_class (obj_type o) = true.
Proof.
  unfold decode_message. intros H.
  apply bind_inr in H as (r' & Hr & H).
  apply bind_inr in H as (u & Ha & H). injection H as ->.
  unfold assert_ in Ha. apply assert_msg_inr in Ha; [|done].
  destruct r as [o|]; [|discriminate]. eauto.
Qed.


End CheckedDecoding.

(** * Two endpoints *)

Section Endpoints.

Variable py_debug : bool.
Variable user_class : string -> class_decl.
Variable dataclass_to_dict : pyobj -> result pydict.
Variable dataclass_from_dict : cls -> pyval -> result pyobj.
Variable json_dumps : pyval -> result string.
Variable json_loads : string -> result pyval.

Lemma err_response_fields (self : MessageProtocol) (exc : pyexception)
    (format_exc : string) :
  err_response self exc format_exc =
    new_ErrorResponse (error_text self exc format_exc)
      (if exc_is_CleanError exc && preserve_clean_errors self
       then CLEAN else OTHER).
Proof.
  unfold err_response, error_text.
  now destruct (exc_is_CleanError exc && preserve_clean_errors self).
Qed.

(** X12.  Transport of a failure from a sender to a receiver that frame
    alike and agree on the id of ErrorResponse: the receiver raises
    CleanError with the text of the failure exactly when the failure is a
    CleanError and both sides preserve clean errors; otherwise it raises
    RemoteError with the text the sender put on the wire (the text of a clean
    failure the sender preserved, else the stack trace of a trusted sender,
    else the fixed message). *)
Theorem error_transport (sender receiver : MessageProtocol)
    (exc : pyexception) (format_exc : string) (i : Z) (d : pydict) :
  _type_key sender = _type_key receiver ->
  response_ids_by_type sender !! ErrorResponse = Some i ->
  response_types_by_id receiver !! i = Some ErrorResponse ->
  dataclass_to_dict (err_response sender exc format_exc) = inr d ->
  dataclass_from_dict ErrorResponse (PDict d)
    = inr (err_response sender exc format_exc) ->
  frameable (_type_key sender) d ->
  transports json_dumps json_loads (envelope (_type_key sender) i d) ->
  exists w,
    (encode_error_response dataclass_to_dict json_dumps sender exc
       format_exc).2 = inr w /\
    decode_response py_debug user_class dataclass_from_dict json_loads
      receiver w =
      inl (if preserve_clean_errors receiver &&
              (exc_is_CleanError exc && preserve_clean_errors sender)
           then CleanError (PStr (exc_str exc))
           else RemoteError (PStr (error_text sender exc format_exc))).
Proof.
  intros Hk Hi Ht Hd Hb Hf (w & Hw & Hr). exists w. split.
  - unfold encode_error_response, encode_response. simpl.
    assert (Hi' : response_ids_by_type sender !!
                    obj_type (err_response sender exc format_exc) = Some i)
      by (now rewrite err_response_fields).
    now rewrite (_encode_envelope dataclass_to_dict json_dumps sender
                   (err_response sender exc format_exc) _ "response" i d
                   Hi' Hd Hf).
  - unfold decode_response.
    assert (Hs : split_envelope (_type_key receiver)
                   (envelope (_type_key sender) i d) = Some (i, d)).
    { rewrite <- Hk. now apply split_envelope_envelope. }
    rewrite (_decode_split _ _ _ _ _ _ _ _ _ _ _ Hr Hs), Ht, Hb.
    rewrite err_response_fields. unfold error_text. simpl.
    rewrite assert_true. simpl.
    destruct (preserve_clean_errors receiver),
             (exc_is_CleanError exc), (preserve_clean_errors sender);
      reflexivity.
Qed.

(** X13.  Two protocols constructed from the same message_types and the
    same type_key interoperate for messages, whatever their response_types,
    their other settings and their interpreter flags are: what one encodes,
    the other decodes to the same instance. *)
Theorem message_interoperation (ds dr : bool)
    (message_types rts rtr : list (Z * cls)) (type_key : option string)
    (a1 b1 c1 a2 b2 c2 : bool) (sender receiver : MessageProtocol)
    (m : pyobj) (i : Z) (d : pydict) :
  __init__ ds user_class message_types rts type_key a1 b1 c1 = inr sender ->
  __init__ dr user_class message_types rtr type_key a2 b2 c2 = inr receiver ->
  ids_as_required ds message_types ->
  message_ids_by_type sender !! obj_type m = Some i ->
  issubclass_Message user_class (obj_type m) = true ->
  dataclass_to_dict m = inr d ->
  dataclass_from_dict (obj_type m) (PDict d) = inr m ->
  frameable type_key d ->
  transports json_dumps json_loads (envelope type_key i d) ->
  exists w,
    encode_message dataclass_to_dict json_dumps sender m = inr w /\
    decode_message dr user_class dataclass_from_dict json_loads receiver w
      = inr (Some m).
Proof.
  intros Hs Hr Hreq Hi Hm Hd Hb Hf (w & Hw & Hl).
  apply __init___inr in Hs as (Ms & _ & Cs & Ds).
  apply __init___inr in Hr as (Mr & _ & Cr & _).
  assert (Ks : _type_key sender = type_key)
    by (unfold protocol_config in Cs; congruence).
  assert (Kr : _type_key receiver = type_key)
    by (unfold protocol_config in Cr; congruence).
  destruct (ids_checked ds _ message_types (fun Ht => proj1 (Ds Ht)) Hreq)
    as [Fm _].
  assert (Cons : consistent (msg_reg sender)).
  { rewrite Ms. apply foldl_reg_consistent; [apply consistent_empty|done]. }
  assert (Ht : message_types_by_id receiver !! i = Some (obj_type m)).
  { change (message_types_by_id receiver) with (msg_reg receiver).1.
    rewrite Mr, <- Ms. now apply Cons. }
  exists w. split.
  - unfold encode_message.
    rewrite (_encode_envelope dataclass_to_dict json_dumps sender m _
               "message" i d Hi Hd); rewrite Ks; done.
  - unfold decode_message.
    assert (He : isinstance_EmptyResponse user_class m = false).
    { unfold isinstance_EmptyResponse. unfold issubclass_Message in Hm.
      now destruct (decl_base (class_of user_class (obj_type m))). }
    assert (Hx : isinstance_ErrorResponse user_class m = false).
    { unfold isinstance_ErrorResponse. unfold issubclass_Message in Hm.
      now destruct (decl_base (class_of user_class (obj_type m))). }
    assert (Hsp : split_envelope (_type_key receiver) (envelope type_key i d)
                  = Some (i, d)).
    { rewrite Kr. now apply split_envelope_envelope. }
    rewrite (_decode_plain dr user_class dataclass_from_dict json_loads
               receiver w _ "message" _ i d (obj_type m) m Hl Hsp Ht Hb He Hx).
    simpl. rewrite Hm, assert_true. reflexivity.
Qed.

(** X14.  Framing mismatch, wrapper to inline: a wrapper-framed envelope
    read by a protocol with a type key other than m and t is refused with
    KeyError for that key, by decode_message and by decode_response, in
    every mode. *)
Theorem wrapper_text_refused_inline (receiver : MessageProtocol)
    (data : string) (i : Z) (d : pydict) (k : string) :
  json_loads data = inr (envelope None i d) ->
  _type_key receiver = Some k ->
  k <> "m" -> k <> "t" ->
  decode_message py_debug user_class dataclass_from_dict json_loads
    receiver data = inl (KeyError k) /\
  decode_response py_debug user_class dataclass_from_dict json_loads
    receiver data = inl (KeyError k).
Proof.
  intros Hl Hk Hm Ht.
  assert (E : forall tbi op,
    _decode py_debug user_class dataclass_from_dict json_loads receiver data
      tbi op = inl (KeyError k)).
  { intros tbi op. unfold _decode. rewrite Hl. simpl.
    rewrite assert_true, Hk. simpl.
    destruct (String.eqb k "m") eqn:E1;
      [apply String.eqb_eq in E1; contradiction|].
    destruct (String.eqb k "t") eqn:E2;
      [apply String.eqb_eq in E2; contradiction|].
    reflexivity. }
  unfold decode_message, decode_response. now rewrite !E.
Qed.

(** X15.  Framing mismatch, inline to wrapper: an inline-framed envelope
    whose key is not t and whose payload has no field t, read by a protocol
    without type key, is never decoded: with assertions executed it raises
    AssertionError, without them UnregisteredMessageIDError for the id
    None. *)
Theorem inline_text_refused_wrapper (receiver : MessageProtocol)
    (data : string) (i : Z) (d : pydict) (k : string) :
  json_loads data = inr (envelope (Some k) i d) ->
  _type_key receiver = None ->
  k <> "t" -> Dict.contains "t" d = false ->
  decode_message py_debug user_class dataclass_from_dict json_loads
    receiver data =
    inl (if py_debug then AssertionError EmptyString
         else UnregisteredMessageIDError "message" PNone) /\
  decode_response py_debug user_class dataclass_from_dict json_loads
    receiver data =
    inl (if py_debug then AssertionError EmptyString
         else UnregisteredMessageIDError "response" PNone).
Proof.
  intros Hl Hk Hne Hc.
  assert (G : Dict.get "t" (Dict.set k (PInt i) d) = None).
  { rewrite Dict_get_set_ne by done. unfold Dict.contains in Hc.
    now destruct (Dict.get "t" d). }
  assert (E : forall tbi op,
    _decode py_debug user_class dataclass_from_dict json_loads receiver data
      tbi op =
      inl (if py_debug then AssertionError EmptyString
           else UnregisteredMessageIDError op PNone)).
  { intros tbi op. unfold _decode. rewrite Hl. simpl.
    rewrite assert_true, Hk. simpl. rewrite G. simpl.
    destruct (Dict.get "m" (Dict.set k (PInt i) d)); simpl;
      unfold assert_, assert_msg; destruct py_debug; simpl; reflexivity. }
  unfold decode_message, decode_response. now rewrite !E.
Qed.

End Endpoints.

Section Logging.

Variable dataclass_to_dict : pyobj -> result pydict.
Variable json_dumps : pyval -> result string.

(** X16.  With log_remote_exceptions enabled, a failure that is not a
    preserved clean error is logged with its stack trace whether or not the
    sender is trusted and whether or not the encoding succeeds, while an
    untrusted sender puts only the fixed message on the wire. *)
Theorem failure_logged_not_leaked (self : MessageProtocol)
    (exc : pyexception) (format_exc : string) :
  log_remote_exceptions self = true ->
  exc_is_CleanError exc && preserve_clean_errors self = false ->
  (encode_error_response dataclass_to_dict json_dumps self exc format_exc).1
    = [LogException "Error handling message." format_exc] /\
  (trusted_sender self = false ->
     (encode_error_response dataclass_to_dict json_dumps self exc format_exc).2
       = encode_response dataclass_to_dict json_dumps self
           (new_ErrorResponse "An unknown error has occurred." OTHER)).
Proof.
  intros Hlog Hc. unfold encode_error_response. simpl. rewrite Hlog.
  split; [reflexivity|]. intros Ht. unfold err_response.
  now rewrite Hc, Ht.
Qed.

End Logging.

(** * The framed document and input that is not an object *)

Lemma Dict_set_fresh (k : string) (v : pyval) (d : pydict) :
  Dict.contains k d = false -> Dict.set k v d = (d ++ [(k, v)])%list.
Proof.
  unfold Dict.contains. induction d as [|[k' v'] d IH]; simpl; [done|].
  destruct (String.eqb k k'); [discriminate|].
  intros H. now rewrite (IH H).
Qed.

Section Framing.

Variable dataclass_to_dict : pyobj -> result pydict.
Variable json_dumps : pyval -> result string.

(** X18.  The document that encode_message serializes: under inline
    framing the fields of the payload in their order followed by the type
    key with the id; under wrapper framing the payload under m followed by
    the id under t. *)
Theorem framed_document (self : MessageProtocol) (message : pyobj)
    (m_id : Z) (msgdict : pydict) :
  message_ids_by_type self !! obj_type message = Some m_id ->
  dataclass_to_dict message = inr msgdict ->
  frameable (_type_key self) msgdict ->
  encode_message dataclass_to_dict json_dumps self message =
    json_dumps
      (match _type_key self with
       | Some type_key => PDict (msgdict ++ [(type_key, PInt m_id)])%list
       | None => PDict [("m", PDict msgdict); ("t", PInt m_id)]
       end).
Proof.
  intros Hi Hd Hf. unfold encode_message.
  rewrite (_encode_envelope _ _ _ _ _ _ _ _ Hi Hd Hf). unfold envelope.
  destruct (_type_key self) as [k|]; [|done].
  now rewrite Dict_set_fresh by (now apply Hf).
Qed.

End Framing.

Section Garbage.

Variable py_debug : bool.
Variable user_class : string -> class_decl.
Variable dataclass_from_dict : cls -> pyval -> result pyobj.
Variable json_loads : string -> result pyval.

(** The exception classes raised for a document that is not an object. *)
Let is_type_failure (e : exn) : bool :=
  match e with
  | AssertionError _ | AttributeError _ | TypeError _ => true
  | _ => false
  end.

Lemma _decode_non_object (self : MessageProtocol) (data : string)
    (msgfull : pyval) (types_by_id : gmap Z cls) (opname : string) :
  json_loads data = inr msgfull ->
  isinstance_dict msgfull = false ->
  exists e,
    _decode py_debug user_class dataclass_from_dict json_loads self data
      types_by_id opname = inl e /\
    is_type_failure e = true /\
    (py_debug = true -> e = AssertionError EmptyString).
Proof.
  intros Hl Hn. unfold _decode. rewrite Hl. simpl bind.
  unfold assert_, assert_msg. rewrite Hn.
  destruct py_debug; simpl.
  - eexists. repeat split.
  - destruct (_type_key self) as [k|];
      destruct msgfull; try discriminate; simpl;
      eexists; (split; [reflexivity|]); split; (reflexivity || discriminate).
Qed.

(** X19.  A JSON document that is not an object is never decoded, in any
    mode: decode_message and decode_response raise AssertionError when
    assertions are executed, and otherwise the AttributeError or TypeError
    of the first dictionary operation. *)
Theorem non_object_never_decoded (self : MessageProtocol) (data : string)
    (msgfull : pyval) :
  json_loads data = inr msgfull ->
  isinstance_dict msgfull = false ->
  (exists e,
     decode_message py_debug user_class dataclass_from_dict json_loads
       self data = inl e /\
     match e with
     | AssertionError _ | AttributeError _ | TypeError _ => True
     | _ => False
     end /\
     (py_debug = true -> e = AssertionError EmptyString)) /\
  (exists e,
     decode_response py_debug user_class dataclass_from_dict json_loads
       self data = inl e /\
     match e with
     | AssertionError _ | AttributeError _ | TypeError _ => True
     | _ => False
     end /\
     (py_debug = true -> e = AssertionError EmptyString)).
Proof.
  intros Hl Hn. split.
  - destruct (_decode_non_object self data msgfull (message_types_by_id self)
                "message" Hl Hn) as (e & He & Hc & Hd).
    exists e. unfold decode_message. rewrite He.
    split; [done|]. split; [|done]. now destruct e.
  - destruct (_decode_non_object self data msgfull (response_types_by_id self)
                "response" Hl Hn) as (e & He & Hc & Hd).
    exists e. unfold decode_response. rewrite He.
    split; [done|]. split; [|done]. now destruct e.
Qed.

End Garbage.

(** * Examples on the Ping/Pong protocol *)

Section Examples.

Import Demo.

Example init_ping_pong (py_debug : bool) (type_key : option string) :
  init py_debug [(1, Ping)] [(1, Pong)] type_key = inr (ping_pong type_key).
Proof. destruct py_debug; reflexivity. Qed.

(** The scenario of the specification: both texts are the same document. *)
Example encode_ping_pong :
  encode_message (ping_pong None) (PyObj Ping []) =
    inr (wire (PDict [("m", PDict []); ("t", PInt 1)])) /\
  encode_response (ping_pong None) (PyObj Pong []) =
    inr (wire (PDict [("m", PDict []); ("t", PInt 1)])) /\
  String.length (wire (PDict [("m", PDict []); ("t", PInt 1)])) = 14%nat.
Proof. repeat split; vm_compute; reflexivity. Qed.

Ltac transported :=
  match goal with
  | |- transports _ _ ?v => exists (wire v); split; vm_compute; reflexivity
  end.

Ltac framed :=
  match goal with
  | |- frameable _ _ =>
      let k := fresh "k" in
      let H := fresh "H" in
      intros k H; simpl in H;
      first [discriminate H | injection H as <-; reflexivity]
  end.

Lemma encode_decode_roundtrip_witness :
  (exists w, encode_message (ping_pong (Some "type")) (PyObj Ping [("n", PInt 3)])
               = inr w /\
             decode_message true (ping_pong (Some "type")) w
               = inr (Some (PyObj Ping [("n", PInt 3)]))) /\
  (exists w, encode_response (ping_pong None) (PyObj Pong []) = inr w /\
             decode_response true (ping_pong None) w
               = inr (Some (PyObj Pong []))).
Proof.
  split.
  - apply (proj1 (encode_decode_roundtrip true user_class dataclass_to_dict
                    dataclass_from_dict json_dumps json_loads
                    (ping_pong (Some "type")))
             (PyObj Ping [("n", PInt 3)]) 1 [("n", PInt 3)]);
      first [framed | transported | split; reflexivity | reflexivity].
  - apply (proj2 (encode_decode_roundtrip true user_class dataclass_to_dict
                    dataclass_from_dict json_dumps json_loads
                    (ping_pong None))
             (PyObj Pong []) 1 []);
      first [framed | transported | split; reflexivity | reflexivity].
Defined.

(** C1, counterexample: an EmptyResponse comes back as None and an
    ErrorResponse as a raised RemoteError, not as the instances encoded; and
    under inline framing a message holding the type key is not encoded at
    all. *)
Lemma encode_decode_roundtrip_counterexample :
  init true [(1, Ping)] [(1, Pong)] None = inr (ping_pong None) /\
  (exists w, encode_response (ping_pong None) new_EmptyResponse = inr w /\
             decode_response true (ping_pong None) w = inr None /\
             decode_response true (ping_pong None) w
               <> inr (Some new_EmptyResponse)) /\
  (exists w, encode_response (ping_pong None) (new_ErrorResponse "oops" OTHER)
               = inr w /\
             decode_response true (ping_pong None) w
               = inl (RemoteError (PStr "oops"))) /\
  (dataclass_to_dict (PyObj Ping [("type", PInt 3)]) = inr [("type", PInt 3)] /\
   dataclass_from_dict Ping (PDict [("type", PInt 3)])
     = inr (PyObj Ping [("type", PInt 3)]) /\
   forall w, encode_message (ping_pong (Some "type"))
               (PyObj Ping [("type", PInt 3)]) <> inr w).
Proof.
  split; [reflexivity|]. split; [|split].
  - exists (wire (envelope None (-2) [])).
    split; [vm_compute; reflexivity|].
    split; [vm_compute; reflexivity|]. vm_compute. discriminate.
  - exists (wire (envelope None (-1)
              [("error_message", PStr "oops"); ("error_type", PStr "OTHER")])).
    split; vm_compute; reflexivity.
  - split; [reflexivity|]. split; [reflexivity|].
    intros w. vm_compute. discriminate.
Qed.

Lemma error_response_privacy_witness :
  (err_response (ping_pong None) (PyException false "disk failure")
       "Traceback (most recent call last): ..."
     = new_ErrorResponse "An unknown error has occurred." OTHER /\
   (encode_error_response (ping_pong None) (PyException false "disk failure")
       "Traceback (most recent call last): ...").2
     = (encode_error_response (ping_pong None) (PyException false "no memory")
       "Traceback: something else").2) /\
  (encode_error_response Peers.plain_peer (PyException false "disk failure")
      "Traceback (most recent call last): ...").2
    = json_dumps
        (PDict [("m", PDict [("error_message",
                              PStr "Traceback (most recent call last): ...");
                             ("error_type", PStr "OTHER")]);
                ("t", PInt (-1))]).
Proof.
  split.
  - destruct (error_response_privacy dataclass_to_dict json_dumps
                (ping_pong None) (PyException false "disk failure")
                "Traceback (most recent call last): ..." eq_refl)
      as [Huntrusted _].
    destruct (Huntrusted eq_refl) as (Hfixed & _ & Hsame).
    split; [exact Hfixed|].
    apply Hsame. reflexivity.
  - destruct (error_response_privacy dataclass_to_dict json_dumps
                Peers.plain_peer (PyException false "disk failure")
                "Traceback (most recent call last): ..." eq_refl)
      as [_ Htrusted].
    destruct (Htrusted eq_refl) as (_ & _ & _ & Hwire).
    apply (Hwire (-1)
             [("error_message", PStr "Traceback (most recent call last): ...");
              ("error_type", PStr "OTHER")]).
    + reflexivity.
    + reflexivity.
    + intros k Hk. discriminate Hk.
Defined.

Lemma clean_error_roundtrip_witness :
  exists w,
    (encode_error_response (ping_pong (Some "type"))
       (PyException true "bad input") EmptyString).2 = inr w /\
    decode_response true (ping_pong (Some "type")) w
      = inl (CleanError (PStr "bad input")).
Proof.
  apply (clean_error_roundtrip true user_class dataclass_to_dict
           dataclass_from_dict json_dumps json_loads
           (ping_pong (Some "type")) (-1) "bad input" EmptyString
           [("error_message", PStr "bad input"); ("error_type", PStr "CLEAN")]);
    first [framed | transported | split; reflexivity | reflexivity].
Defined.

(** C3, counterexample: under inline framing with a type key that names a
    field of the serialized ErrorResponse, the clean failure is not encoded:
    [encode_error_response] raises, and there is no wire string to decode. *)
Lemma clean_error_roundtrip_counterexample :
  init true [(1, Ping)] [(1, Pong)] (Some "error_message")
    = inr (ping_pong (Some "error_message")) /\
  preserve_clean_errors (ping_pong (Some "error_message")) = true /\
  (encode_error_response (ping_pong (Some "error_message"))
     (PyException true "bad input") EmptyString).2
    = inl (RuntimeError
        "Type-key error_message found in msg of type <class 'efro.message._message.ErrorResponse'>").
Proof. repeat split. Qed.

Lemma empty_response_collapses_witness :
  (exists w, encode_response (ping_pong None) new_EmptyResponse = inr w /\
             decode_response true (ping_pong None) w = inr None) /\
  decode_response true (ping_pong (Some "type"))
    (wire (PDict [("type", PInt (-2))])) = inr None.
Proof.
  split.
  - apply (proj1 (empty_response_collapses true user_class dataclass_to_dict
                    dataclass_from_dict json_dumps json_loads (ping_pong None))
             (-2));
      first [transported | split; reflexivity | reflexivity].
  - apply (proj2 (empty_response_collapses true user_class dataclass_to_dict
                    dataclass_from_dict json_dumps json_loads
                    (ping_pong (Some "type")))
             (wire (PDict [("type", PInt (-2))])) (PDict [("type", PInt (-2))])
             (-2) [] EmptyResponse new_EmptyResponse);
      vm_compute; reflexivity.
Defined.

Lemma encode_message_key_collision_witness :
  encode_message (ping_pong (Some "type")) (PyObj Ping [("type", PInt 3)])
    = inl (RuntimeError "Type-key type found in msg of type <class 'app.Ping'>").
Proof.
  apply (encode_message_key_collision dataclass_to_dict json_dumps
           (ping_pong (Some "type")) (PyObj Ping [("type", PInt 3)])
           "type" 1 [("type", PInt 3)]); reflexivity.
Defined.

Lemma unknown_id_rejected_witness :
  decode_message true (ping_pong None)
    (wire (PDict [("m", PDict []); ("t", PInt 7)]))
    = inl (UnregisteredMessageIDError "message" (PInt 7)) /\
  decode_message true (ping_pong None)
    (wire (PDict [("m", PDict [("error_message", PStr "x");
                               ("error_type", PStr "OTHER")]);
                  ("t", PInt (-1))]))
    = inl (UnregisteredMessageIDError "message" (PInt (-1))).
Proof.
  split.
  - refine (proj1 (unknown_id_rejected user_class dataclass_from_dict
             json_loads true [(1, Ping)] [(1, Pong)] None true true false
             (ping_pong None)
             (wire (PDict [("m", PDict []); ("t", PInt 7)]))
             (PDict [("m", PDict []); ("t", PInt 7)]) 7 [] _ _ _ _) _).
    + reflexivity.
    + left. reflexivity.
    + vm_compute. reflexivity.
    + reflexivity.
    + vm_compute. reflexivity.
  - refine (proj2 (proj2 (proj2 (proj2
             (unknown_id_rejected user_class dataclass_from_dict
                json_loads true [(1, Ping)] [(1, Pong)] None true true false
                (ping_pong None)
                (wire (PDict [("m", PDict [("error_message", PStr "x");
                                           ("error_type", PStr "OTHER")]);
                              ("t", PInt (-1))]))
                (PDict [("m", PDict [("error_message", PStr "x");
                                     ("error_type", PStr "OTHER")]);
                        ("t", PInt (-1))])
                (-1)
                [("error_message", PStr "x"); ("error_type", PStr "OTHER")]
                _ _ _ _)))) _).
    + reflexivity.
    + left. reflexivity.
    + vm_compute. reflexivity.
    + reflexivity.
    + left. reflexivity.
Defined.

Lemma malformed_envelope_rejected_witness :
  exists e,
    decode_message true (ping_pong None) (wire (PDict [("m", PDict [])]))
      = inl e /\
    is_envelope_error e = true.
Proof.
  apply (malformed_envelope_rejected user_class dataclass_from_dict json_loads
           (ping_pong None) (wire (PDict [("m", PDict [])]))
           (PDict [("m", PDict [])]));
    vm_compute; reflexivity.
Defined.

(** C7, counterexample: without assertions (__debug__ false) an envelope
    with no id is answered by UnregisteredMessageIDError; and an id that is
    the JSON value true, not an integer, is accepted as the id 1. *)
Lemma malformed_envelope_rejected_counterexample :
  init false [(1, Ping)] [(1, Pong)] None = inr (ping_pong None) /\
  json_loads (wire (PDict [("m", PDict [])])) = inr (PDict [("m", PDict [])]) /\
  Dict.get "t" [("m", PDict [])] = None /\
  decode_message false (ping_pong None) (wire (PDict [("m", PDict [])]))
    = inl (UnregisteredMessageIDError "message" PNone) /\
  json_loads (wire (PDict [("m", PDict []); ("t", PBool true)]))
    = inr (PDict [("m", PDict []); ("t", PBool true)]) /\
  decode_message true (ping_pong None)
    (wire (PDict [("m", PDict []); ("t", PBool true)]))
    = inr (Some (PyObj Ping [])).
Proof. repeat split; vm_compute; reflexivity. Qed.

Lemma missing_response_type_rejected_witness :
  exists e, init true [(1, Ping)] [] None = inl e /\ is_config_error e = true.
Proof.
  apply (missing_response_type_rejected user_class [(1, Ping)] [] None
           true true false 1 Ping Pong).
  - apply list_elem_of_here.
  - apply list_elem_of_here.
  - discriminate.
  - discriminate.
  - apply not_elem_of_nil.
Defined.

(** C8, counterexample: without the debug-mode validation (__debug__
    false) the protocol is constructed although [Ping] declares the response
    [Pong], which is not registered. *)
Lemma missing_response_type_rejected_counterexample :
  exists self,
    init false [(1, Ping)] [] None = inr self /\
    decl_response_types (class_of user_class Ping) = [Pong] /\
    response_ids_by_type self !! Pong = None.
Proof.
  exists (mkMessageProtocol {[1 := Ping]} {[Ping := 1]}
            (<[-2 := EmptyResponse]> {[-1 := ErrorResponse]})
            (<[EmptyResponse := -2]> {[ErrorResponse := -1]})
            None true true false).
  repeat split; vm_compute; reflexivity.
Qed.

Lemma builtin_responses_registered_witness :
  Forall (fun it => 0 <= it.1) [(1, Pong)] /\
  builtin_registered (ping_pong None) [(1, Pong)] ErrorResponse (-1) /\
  builtin_registered (ping_pong None) [(1, Pong)] EmptyResponse (-2).
Proof.
  apply (builtin_responses_registered user_class true [(1, Ping)] [(1, Pong)]
           None true true false (ping_pong None)).
  - reflexivity.
  - left. reflexivity.
Defined.

Lemma duplicate_names_rejected_witness :
  exists e,
    init true [(1, Ping); (2, LegacyPing)] [(1, Pong)] None = inl e /\
    is_config_error e = true.
Proof.
  apply (duplicate_names_rejected user_class [(1, Ping); (2, LegacyPing)]
           [(1, Pong)] None true true false 1 2 Ping LegacyPing).
  - apply list_elem_of_here.
  - apply list_elem_of_further, list_elem_of_here.
  - discriminate.
  - reflexivity.
Defined.

(** C10, counterexample: without the debug-mode validation (__debug__
    false) the protocol is constructed although two distinct message classes
    are both named [Ping]. *)
Lemma duplicate_names_rejected_counterexample :
  exists self,
    init false [(1, Ping); (2, LegacyPing)] [(1, Pong)] None = inr self /\
    Ping <> LegacyPing /\
    decl_name (class_of user_class Ping)
      = decl_name (class_of user_class LegacyPing) /\
    message_ids_by_type self !! Ping = Some 1 /\
    message_ids_by_type self !! LegacyPing = Some 2.
Proof.
  exists (mkMessageProtocol
            (<[2 := LegacyPing]> {[1 := Ping]})
            (<[LegacyPing := 2]> {[Ping := 1]})
            (<[-2 := EmptyResponse]> (<[-1 := ErrorResponse]> {[1 := Pong]}))
            (<[EmptyResponse := -2]> (<[ErrorResponse := -1]> {[Pong := 1]}))
            None true true false).
  split; [reflexivity|]. split; [discriminate|].
  repeat split; vm_compute; reflexivity.
Qed.

End Examples.

(** * Examples of the further properties *)

Section MoreExamples.

Import Demo.

Ltac transported :=
  match goal with
  | |- transports _ _ ?v => exists (wire v); split; vm_compute; reflexivity
  end.

Ltac framed :=
  match goal with
  | |- frameable _ _ =>
      let k := fresh "k" in
      let H := fresh "H" in
      intros k H; simpl in H;
      first [discriminate H | injection H as <-; reflexivity]
  end.

Example init_plain_peer :
  __init__ false user_class [(1, Ping)] [] None false false true
    = inr Peers.plain_peer.
Proof. reflexivity. Qed.

Example init_response_as_message :
  init false [(0, EmptyResponse)] [] None = inr Peers.response_as_message.
Proof. reflexivity. Qed.

Lemma unlisted_class_not_encoded_witness :
  encode_message (ping_pong None) (PyObj Pong [])
    = inl (TypeError
        "message type is not registered in protocol: <class 'app.Pong'>").
Proof.
  refine (proj1 (unlisted_class_not_encoded user_class dataclass_to_dict
            json_dumps true [(1, Ping)] [(1, Pong)] None true true false
            (ping_pong None) _) (PyObj Pong []) _).
  - reflexivity.
  - vm_compute. intros H. inversion H as [|? ? ? H']. inversion H'.
Defined.

Lemma listed_classes_registered_witness :
  message_types_by_id (ping_pong None) !! 1 = Some Ping /\
  message_ids_by_type (ping_pong None) !! Ping = last_id Ping [(1, Ping)].
Proof.
  destruct (listed_classes_registered user_class true [(1, Ping)] [(1, Pong)]
              None true true false (ping_pong None) eq_refl
              (or_introl eq_refl) (or_introl eq_refl))
    as (Hid & Htype & _).
  split; [apply Hid; apply list_elem_of_here | apply Htype].
Defined.

Lemma registries_independent_witness :
  message_types_by_id (ping_pong None)
    = message_types_by_id Peers.plain_peer /\
  message_ids_by_type (ping_pong None)
    = message_ids_by_type Peers.plain_peer.
Proof.
  refine (proj1 (registries_independent user_class true false
            [(1, Ping)] [(1, Pong)] [(1, Ping)] [] None None
            true true false false false true
            (ping_pong None) Peers.plain_peer _ _) eq_refl);
    reflexivity.
Defined.

Example init_two_messages :
  __init__ true Peers.user_class [(1, Ping); (2, Peers.Echo)] [(1, Pong)]
    None true true false = inr Peers.two_messages.
Proof. reflexivity. Qed.

Lemma checked_names_distinct_witness :
  NoDup ((fun it => decl_name (class_of Peers.user_class it.2)) <$>
           [(1, Ping); (2, Peers.Echo)]) /\
  NoDup [(1, Ping); (2, Peers.Echo)].*2.
Proof.
  apply (checked_names_distinct Peers.user_class
           [(1, Ping); (2, Peers.Echo)] [(1, Pong)] None true true false
           Peers.two_messages).
  reflexivity.
Defined.

Lemma checked_types_valid_witness :
  (NoDup [(1, Ping)].*1 /\
   Forall (fun it => 0 <= it.1 /\
             is_ioprepped_dataclass user_class it.2 = true /\
             issubclass_Message user_class it.2 = true) [(1, Ping)]) /\
  (NoDup [(1, Pong)].*1 /\
   Forall (fun it => 0 <= it.1 /\
             is_ioprepped_dataclass user_class it.2 = true /\
             issubclass_Response user_class it.2 = true) [(1, Pong)]).
Proof.
  apply (checked_types_valid user_class [(1, Ping)] [(1, Pong)] None
           true true false (ping_pong None)).
  reflexivity.
Defined.

Lemma checked_responses_covered_witness :
  decl_response_types (class_of user_class Ping) <> [] /\
  NoDup (decl_response_types (class_of user_class Ping)) /\
  forall r, r ∈ decl_response_types (class_of user_class Ping) ->
    is_ioprepped_dataclass user_class r = true /\
    issubclass_Response user_class r = true /\
    is_Some (response_ids_by_type (ping_pong None) !! r).
Proof.
  apply (checked_responses_covered user_class [(1, Ping)] [(1, Pong)] None
           true true false (ping_pong None) 1 Ping).
  - reflexivity.
  - apply list_elem_of_here.
Defined.

Lemma decode_response_value_witness :
  isinstance_EmptyResponse user_class (PyObj Pong []) = false /\
  isinstance_ErrorResponse user_class (PyObj Pong []) = false /\
  (true = true -> issubclass_Response user_class Pong = true).
Proof.
  apply (decode_response_value true user_class dataclass_from_dict json_loads
           (ping_pong None) (wire (envelope None 1 [])) (PyObj Pong [])).
  vm_compute. reflexivity.
Defined.

Lemma boolean_id_decoded_witness :
  decode_message true (ping_pong None)
    (wire (PDict [("m", PDict []); ("t", PBool true)]))
    = inr (Some (PyObj Ping [])) /\
  decode_message true (ping_pong None)
    (wire (PDict [("m", PDict []); ("t", PBool false)]))
    = inl (UnregisteredMessageIDError "message" (PBool false)).
Proof.
  split.
  - refine (proj2 (boolean_id_decoded true user_class dataclass_from_dict
              json_loads (ping_pong None)
              (wire (PDict [("m", PDict []); ("t", PBool true)]))
              (PDict [("m", PDict []); ("t", PBool true)]) true [] _ _)
              Ping (PyObj Ping []) _ _ _);
      vm_compute; reflexivity.
  - refine (proj1 (boolean_id_decoded true user_class dataclass_from_dict
              json_loads (ping_pong None)
              (wire (PDict [("m", PDict []); ("t", PBool false)]))
              (PDict [("m", PDict []); ("t", PBool false)]) false [] _ _) _);
      vm_compute; reflexivity.
Defined.

Lemma decode_message_value_witness :
  exists o, Some (PyObj Ping []) = Some o /\
            issubclass_Message user_class (obj_type o) = true.
Proof.
  apply (decode_message_value user_class dataclass_from_dict json_loads
           (ping_pong None) (wire (envelope None 1 []))).
  vm_compute. reflexivity.
Defined.


Lemma error_transport_witness :
  exists w,
    (encode_error_response (ping_pong None) (PyException true "bad input")
       EmptyString).2 = inr w /\
    decode_response true Peers.plain_peer w
      = inl (RemoteError (PStr "bad input")).
Proof.
  apply (error_transport true user_class dataclass_to_dict dataclass_from_dict
           json_dumps json_loads (ping_pong None) Peers.plain_peer
           (PyException true "bad input") EmptyString (-1)
           [("error_message", PStr "bad input"); ("error_type", PStr "CLEAN")]);
    first [framed | transported | reflexivity].
Defined.

Lemma message_interoperation_witness :
  exists w,
    encode_message (ping_pong None) (PyObj Ping [("n", PInt 3)]) = inr w /\
    decode_message false Peers.plain_peer w
      = inr (Some (PyObj Ping [("n", PInt 3)])).
Proof.
  apply (message_interoperation user_class dataclass_to_dict
           dataclass_from_dict json_dumps json_loads true false
           [(1, Ping)] [(1, Pong)] [] None true true false false false true
           (ping_pong None) Peers.plain_peer
           (PyObj Ping [("n", PInt 3)]) 1 [("n", PInt 3)]);
    first [framed | transported | left; reflexivity | reflexivity].
Defined.

Lemma wrapper_text_refused_inline_witness :
  decode_message true (ping_pong (Some "type")) (wire (envelope None 1 []))
    = inl (KeyError "type") /\
  decode_response true (ping_pong (Some "type")) (wire (envelope None 1 []))
    = inl (KeyError "type").
Proof.
  apply (wrapper_text_refused_inline true user_class dataclass_from_dict
           json_loads (ping_pong (Some "type")) (wire (envelope None 1 []))
           1 [] "type");
    first [discriminate | vm_compute; reflexivity].
Defined.

Lemma inline_text_refused_wrapper_witness :
  decode_message false (ping_pong None)
    (wire (envelope (Some "type") 1 []))
    = inl (UnregisteredMessageIDError "message" PNone) /\
  decode_response false (ping_pong None)
    (wire (envelope (Some "type") 1 []))
    = inl (UnregisteredMessageIDError "response" PNone).
Proof.
  apply (inline_text_refused_wrapper false user_class dataclass_from_dict
           json_loads (ping_pong None) (wire (envelope (Some "type") 1 []))
           1 [] "type");
    first [discriminate | vm_compute; reflexivity].
Defined.

Lemma failure_logged_not_leaked_witness :
  (encode_error_response (ping_pong (Some "error_message"))
     (PyException false "disk failure") "Traceback: disk failure").1
    = [LogException "Error handling message." "Traceback: disk failure"].
Proof.
  apply (failure_logged_not_leaked dataclass_to_dict json_dumps
           (ping_pong (Some "error_message"))
           (PyException false "disk failure") "Traceback: disk failure");
    reflexivity.
Defined.

Lemma construction_failure_kind_witness :
  true = true /\
  is_config_error
    (ValueError
       "Possible response type <class 'app.Pong'> needs to be included in response_types for this protocol.")
    = true.
Proof.
  apply (construction_failure_kind user_class true [(1, Ping)] [] None
           true true false).
  vm_compute. reflexivity.
Defined.

Lemma framed_document_witness :
  encode_message (ping_pong (Some "type")) (PyObj Ping [("n", PInt 3)])
    = json_dumps (PDict [("n", PInt 3); ("type", PInt 1)]).
Proof.
  apply (framed_document dataclass_to_dict json_dumps
           (ping_pong (Some "type")) (PyObj Ping [("n", PInt 3)]) 1
           [("n", PInt 3)]);
    first [framed | reflexivity].
Defined.

Lemma non_object_never_decoded_witness :
  exists e,
    decode_message false (ping_pong (Some "type")) (wire (PList [PInt 1]))
      = inl e /\
    match e with
    | AssertionError _ | AttributeError _ | TypeError _ => True
    | _ => False
    end /\
    (false = true -> e = AssertionError EmptyString).
Proof.
  refine (proj1 (non_object_never_decoded false user_class dataclass_from_dict
            json_loads (ping_pong (Some "type")) (wire (PList [PInt 1]))
            (PList [PInt 1]) _ _)).
  - vm_compute. reflexivity.
  - reflexivity.
Defined.

End MoreExamples.
